(** * Excel Data Analyzer (streamlit_app.py): header extraction,
      consolidation and descriptive statistics

    The script reads every uploaded workbook with pandas, keeps the columns
    whose names match a fixed list of headers, stacks the kept rows in one
    table tagged with the file name, and shows value counts and numbers of
    distinct values for a few fields.

    The development follows the script top to bottom: Python text and its
    methods, the table operations of pandas the script calls, the globals of
    the script as a record, the body of the per-file loop in a small
    state-and-exception monad, the analysis section, and then the theorems. *)

From stdpp Require Import base decidable option list strings gmap sorting.
From Stdlib Require Import Ascii ZArith NArith Lia.

#[local] Set Warnings "-clear-no-such-hyp".

(** ** Python text

    A Python [str] is a sequence of code points.  Text is a [string] here and
    each character stands for the code point of the same number, U+0000 to
    U+00FF; on that range the three methods below are Python's. *)

Module py.

(** [ch.isspace()]: the white space of Python for code points below 256 is
    TAB..CR, FS..US, SPACE, NEL and NBSP. *)
Definition isspace (c : ascii) : bool :=
  let n := N_of_ascii c in
  ((9 <=? n) && (n <=? 13) || (28 <=? n) && (n <=? 32) || (n =? 133) || (n =? 160))%N.

(** [ch.lower()]: A..Z and the capital letters of Latin-1 (U+00C0..U+00DE
    without the multiplication sign U+00D7) move up by 32. *)
Definition lower_char (c : ascii) : ascii :=
  let n := N_of_ascii c in
  (if (65 <=? n) && (n <=? 90) || (192 <=? n) && (n <=? 222) && negb (n =? 215)
   then ascii_of_N (n + 32) else c)%N.

(** [s.lower()] *)
Fixpoint lower (s : string) : string :=
  match s with
  | EmptyString => EmptyString
  | String c s' => String (lower_char c) (lower s')
  end.

(** [s.lstrip()], [s.rstrip()] and [s.strip()] without argument. *)
Fixpoint lstrip (s : string) : string :=
  match s with
  | EmptyString => EmptyString
  | String c s' => if isspace c then lstrip s' else s
  end.

Fixpoint rstrip (s : string) : string :=
  match s with
  | EmptyString => EmptyString
  | String c s' =>
      match rstrip s' with
      | EmptyString => if isspace c then EmptyString else String c EmptyString
      | r => String c r
      end
  end.

Definition strip (s : string) : string := lstrip (rstrip s).

(** [s.replace(old, new)] for a pattern [old] of one character, which is all
    the script uses ([regex=False], so the period is a plain character). *)
Fixpoint replace (old : ascii) (new : string) (s : string) : string :=
  match s with
  | EmptyString => EmptyString
  | String c s' =>
      if decide (c = old) then new +:+ replace old new s'
      else String c (replace old new s')
  end.

(** [sep.join(xs)] *)
Fixpoint join (sep : string) (xs : list string) : string :=
  match xs with
  | [] => ""
  | [x] => x
  | x :: rest => x +:+ sep +:+ join sep rest
  end.

End py.

(** ** The static header list (lines 20-31) *)

Definition COMMON_HEADERS : list string :=
  [ "Domicile"; "Legal Status"; "Promoter/Initiator"; "Monterey SchemelD";
    "Fund Name"; "Sub-Fund Name"; "Region & Category"; "Industry";
    "Asset Allocation"; "Fund Of Funds / Fund of Hedge Funds"; "Master/Feeder";
    "Monterey Admin ID"; "Administrator Location"; "Monterey Audit ID";
    "Auditor"; "Auditor Location"; "Monterey Leg ID"; "Legal Adviser";
    "Legal Adviser Location"; "Transfer Agent"; "Monterey ManCo/AIFM ID";
    "ManCo/AlFM Location"; "ManCo/AIFM Parent Origin"; "ManCo/AIFM Third Party";
    "Registered AIFM"; "Self Managed"; "Fund Vintage Year/Launch Date";
    "Sub-Fund Vintage Year/Launch Date"; "Promoter Origin Code"; "Administrator";
    "UCITS/ AIF"; "TNAV USD"; "USS TNAV" ].

(** ** Tables

    A cell holds a text, a number, or nothing ([NaN], the missing value of
    pandas).  A [DataFrame] is kept row by row under its list of column
    labels; labels may repeat, as they may in pandas. *)

Inductive value :=
  | Text (s : string)
  | Number (z : Z).

Abbreviation cell := (option value).
Abbreviation NaN := (@None value) (only parsing).

#[global] Instance value_eq_dec : EqDecision value.
Proof. solve_decision. Defined.

Record DataFrame := mkDataFrame {
  columns : list string;
  rows : list (list cell)
}.

#[global] Instance DataFrame_eq_dec : EqDecision DataFrame.
Proof. solve_decision. Defined.

(** What [pd.read_excel] hands back: the labels come from the first row of
    the sheet and need not be text (a number or a date in the header row
    gives a label that is no [str]). *)
Inductive label :=
  | Str (s : string)
  | NotStr (z : Z).

Record Sheet := mkSheet {
  sheet_columns : list label;
  sheet_rows : list (list cell)
}.

Inductive exn :=
  | ReadError          (* whatever pd.read_excel raised *)
  | TypeError          (* str.join over a label that is no str *)
  | AttributeError     (* the .str accessor on labels that are no texts *)
  | KeyError           (* df[keys] with an unknown key *)
  | InvalidIndexError. (* pd.concat re-aligning a frame with repeated labels *)

#[global] Instance exn_eq_dec : EqDecision exn.
Proof. solve_decision. Defined.

Inductive result (A : Type) :=
  | Ok (a : A)
  | Err (e : exn).
Arguments Ok {A} a.
Arguments Err {A} e.

(** The first occurrences of the elements of a list, in order. *)
Definition unique {A} `{EqDecision A} (l : list A) : list A :=
  reverse (remove_dups (reverse l)).

Module pd.

(** [DataFrame()] *)
Definition DataFrame_ : DataFrame := mkDataFrame [] [].

(** [df.empty]: some axis has length 0. *)
Definition empty (df : DataFrame) : bool :=
  bool_decide (length (rows df) = 0 ∨ length (columns df) = 0).

(** [df.columns = df.columns.str.f(...)] for a text method [f].  A frame
    without columns is what a sheet without cells is read as; its labels are
    an empty range of numbers (pandas 2), not texts, and the accessor raises
    on it. *)
Definition columns_str (f : string → string) (df : DataFrame) : result DataFrame :=
  if decide (columns df = []) then Err AttributeError
  else Ok (mkDataFrame (f <$> columns df) (rows df)).

(** The positions at which a label stands. *)
Fixpoint positions (key : string) (cols : list string) : list nat :=
  match cols with
  | [] => []
  | c :: cols' =>
      (if decide (c = key) then [0] else []) ++ (S <$> positions key cols')
  end.

Definition take_cells (idx : list nat) (r : list cell) : list cell :=
  (λ i, default NaN (r !! i)) <$> idx.

(** [df[keys]] for a list of labels: every column standing under each key, in
    the order of the keys; a key that labels nothing raises. *)
Fixpoint indexer (cols : list string) (keys : list string) : result (list nat) :=
  match keys with
  | [] => Ok []
  | k :: keys' =>
      match positions k cols with
      | [] => Err KeyError
      | ps => match indexer cols keys' with
              | Ok qs => Ok (ps ++ qs)
              | Err e => Err e
              end
      end
  end.

Definition getitem_list (df : DataFrame) (keys : list string) : result DataFrame :=
  match indexer (columns df) keys with
  | Ok idx => Ok (mkDataFrame ((λ i, default "" (columns df !! i)) <$> idx)
                              (take_cells idx <$> rows df))
  | Err e => Err e
  end.

(** [df[key] = v] for a scalar: a new last column, or every column already
    under that label overwritten. *)
Definition setitem (df : DataFrame) (key : string) (v : cell) : DataFrame :=
  if decide (key ∈ columns df)
  then mkDataFrame (columns df)
         (zip_with (λ c x, if decide (c = key) then v else x) (columns df) <$> rows df)
  else mkDataFrame (columns df ++ [key]) ((λ r, r ++ [v]) <$> rows df).

(** [df[key]] for one label: a Series when the label stands once, a frame of
    all the columns under it when it repeats. *)
Inductive selection :=
  | Series (s : list cell)
  | Frame (df : DataFrame).

Definition getitem (df : DataFrame) (key : string) : result selection :=
  match positions key (columns df) with
  | [] => Err KeyError
  | [i] => Ok (Series ((λ r, default NaN (r !! i)) <$> rows df))
  | idx => Ok (Frame (mkDataFrame ((λ _, key) <$> idx) (take_cells idx <$> rows df)))
  end.

(** Re-aligning a row from labels [cols] to labels [new_cols]: the cell under
    the same label, [NaN] where the row has none. *)
Definition reindex (cols new_cols : list string) (r : list cell) : list cell :=
  (λ l, match list_find (λ c, c = l) cols with
        | Some (i, _) => default NaN (r !! i)
        | None => NaN
        end) <$> new_cols.

(** The labels of a concatenation ([join='outer'], [sort=False]): the common
    index when all are equal, else every label once, in order of appearance. *)
Definition union_indexes (idxs : list (list string)) : list string :=
  match idxs with
  | [] => []
  | i :: rest =>
      if forallb (λ j, bool_decide (j = i)) rest then i else unique (mjoin idxs)
  end.

(** The rows of one frame under the labels of the result: kept as they are
    when the labels agree, re-aligned otherwise, which pandas refuses for
    repeated labels. *)
Definition align (new_cols : list string) (df : DataFrame) : result (list (list cell)) :=
  if decide (columns df = new_cols) then Ok (rows df)
  else if decide (NoDup (columns df)) then Ok (reindex (columns df) new_cols <$> rows df)
  else Err InvalidIndexError.

Fixpoint align_all (new_cols : list string) (objs : list DataFrame) : result (list (list cell)) :=
  match objs with
  | [] => Ok []
  | df :: objs' =>
      match align new_cols df with
      | Ok rs => match align_all new_cols objs' with
                 | Ok rs' => Ok (rs ++ rs')
                 | Err e => Err e
                 end
      | Err e => Err e
      end
  end.

(** [pd.concat(objs, ignore_index=True)] along the rows.  Frames of shape
    (0, 0), such as [DataFrame()], are left out when another frame remains. *)
Definition concat (objs : list DataFrame) : result DataFrame :=
  let non_empties :=
    filter (λ df, 0 < length (rows df) + length (columns df)) objs in
  let objs := match non_empties with [] => objs | _ => non_empties end in
  let new_cols := union_indexes (columns <$> objs) in
  match align_all new_cols objs with
  | Ok rs => Ok (mkDataFrame new_cols rs)
  | Err e => Err e
  end.

(** [s.value_counts(dropna=...)] and [t.sort_values(ascending=False)]:
    every distinct value with the number of cells holding it, largest count
    first.  pandas does not fix the order among equal counts; a merge sort
    stands for its sort here. *)
Definition count_of (c : cell) (s : list cell) : nat :=
  length (filter (λ x, x = c) s).

Definition by_count_desc (x y : cell * nat) : Prop := y.2 ≤ x.2.

#[global] Instance by_count_desc_dec : RelDecision by_count_desc.
Proof. intros x y. unfold by_count_desc. apply _. Defined.

Definition sort_values_desc (t : list (cell * nat)) : list (cell * nat) :=
  merge_sort by_count_desc t.

Definition value_counts (dropna : bool) (s : list cell) : list (cell * nat) :=
  let kept := if dropna then filter (λ x, is_Some x) s else s in
  sort_values_desc ((λ c, (c, count_of c s)) <$> unique kept).

(** [s.nunique()]: the distinct values, the missing one left out. *)
Definition nunique (s : list cell) : nat :=
  length (unique (omap id s)).

(** [x.head(n)] *)
Definition head {A} (n : nat) (l : list A) : list A := take n l.

End pd.

(** ** The page and the globals of the script

    Every call that puts data on the page is kept, in order, with the data
    it shows; the texts around the data are not spelled out, titles and
    charts are left out.  [progress num den] is the progress bar set to the
    fraction [num / den]. *)

Inductive element :=
  | write_processing (name : string)                      (* line 50 *)
  | write_original_columns (name cols : string)           (* line 51 *)
  | warning_no_common_headers (name : string)             (* line 67 *)
  | success_processed (name : string)                     (* line 83 *)
  | write_extracted_headers (cols : string)               (* line 84 *)
  | error_processing (name : string) (e : exn)            (* line 87 *)
  | progress (num den : nat)                              (* line 89 *)
  | success_consolidated (n : nat)                        (* line 92 *)
  | dataframe_preview (df : DataFrame)                    (* line 94 *)
  | info_no_column (field : string)                       (* lines 119, 142 *)
  | dataframe_counts (field : string) (t : list (cell * nat))  (* 103, 126, 161, 174 *)
  | write_top (field : string) (t : list (cell * nat))    (* lines 115, 138, 150, 155 *)
  | write_nunique (field : string) (n : nat)              (* lines 117, 140, 148, ... *)
  | not_a_series (field : string)
  | write_found_headers (hs : list string)                (* line 186 *)
  | warning_no_headers_extracted                          (* line 188 *)
  | warning_no_data                                       (* line 191 *)
  | info_please_upload.                                   (* line 194 *)

#[global] Instance element_eq_dec : EqDecision element.
Proof. solve_decision. Defined.

Record UploadedFile := mkUploadedFile {
  name : string;
  read_excel : result Sheet   (* what pd.read_excel(uploaded_file) does *)
}.

Record Globals := mkGlobals {
  common_headers : list string;                 (* COMMON_HEADERS *)
  all_data_df : DataFrame;
  processed_files_count : nat;
  found_headers_across_files : gset string;
  page : list element
}.

(** Lines 20-36. *)
Definition initial : Globals :=
  mkGlobals COMMON_HEADERS pd.DataFrame_ 0 ∅ [].

(** ** Statements: state, exceptions and [continue] *)

Inductive outcome (A : Type) :=
  | Normal (a : A)
  | Continue
  | Raise (e : exn).
Arguments Normal {A} a.
Arguments Continue {A}.
Arguments Raise {A} e.

Definition M (A : Type) : Type := Globals → Globals * outcome A.

#[global] Instance M_ret : MRet M := λ A a g, (g, Normal a).

#[global] Instance M_bind : MBind M := λ A B f m g,
  match m g with
  | (g', Normal a) => f a g'
  | (g', Continue) => (g', Continue)
  | (g', Raise e) => (g', Raise e)
  end.

Definition continue {A} : M A := λ g, (g, Continue).

Definition lift {A} (r : result A) : M A := λ g,
  match r with
  | Ok a => (g, Normal a)
  | Err e => (g, Raise e)
  end.

Definition get {A} (f : Globals → A) : M A := λ g, (g, Normal (f g)).

Definition st (e : element) : M unit := λ g,
  (mkGlobals (common_headers g) (all_data_df g) (processed_files_count g)
     (found_headers_across_files g) (page g ++ [e]), Normal ()).

Definition found_headers_add (h : string) : M unit := λ g,
  (mkGlobals (common_headers g) (all_data_df g) (processed_files_count g)
     ({[h]} ∪ found_headers_across_files g) (page g), Normal ()).

Definition set_all_data_df (df : DataFrame) : M unit := λ g,
  (mkGlobals (common_headers g) df (processed_files_count g)
     (found_headers_across_files g) (page g), Normal ()).

Definition incr_processed_files_count : M unit := λ g,
  (mkGlobals (common_headers g) (all_data_df g) (processed_files_count g + 1)
     (found_headers_across_files g) (page g), Normal ()).

(** ** The per-file loop (lines 45-89) *)

(** [df.columns.tolist()] as a list of [str], as [', '.join] wants it. *)
Fixpoint tolist_str (ls : list label) : result (list string) :=
  match ls with
  | [] => Ok []
  | Str s :: ls' =>
      match tolist_str ls' with
      | Ok ss => Ok (s :: ss)
      | Err e => Err e
      end
  | NotStr _ :: _ => Err TypeError
  end.

(** [[col for col in df.columns if col.lower() == header.lower()]] *)
Definition matching_cols (header : string) (cols : list string) : list string :=
  filter (λ col, py.lower col = py.lower header) cols.

(** Lines 58-64. *)
Fixpoint header_loop (headers cols current_file_headers : list string) : M (list string) :=
  match headers with
  | [] => mret current_file_headers
  | header :: headers' =>
      match matching_cols header cols with
      | [] => header_loop headers' cols current_file_headers
      | col :: _ =>
          found_headers_add col;;
          header_loop headers' cols (current_file_headers ++ [col])
      end
  end.

(** Lines 72-76. *)
Fixpoint extract_loop (col_names cols cols_to_extract : list string) : list string :=
  match col_names with
  | [] => cols_to_extract
  | col_name :: col_names' =>
      match matching_cols col_name cols with
      | [] => extract_loop col_names' cols cols_to_extract
      | col :: _ => extract_loop col_names' cols (cols_to_extract ++ [col])
      end
  end.

(** Lines 54-55. *)
Definition normalize (col : string) : string :=
  py.replace "."%char "" (py.strip col).

(** Lines 47-79 of the body of [try]: from the upload to [extracted_df]. *)
Definition extract (uploaded_file : UploadedFile) : M (DataFrame * list string) :=
  sheet ← lift (read_excel uploaded_file);
  st (write_processing (name uploaded_file));;
  original ← lift (tolist_str (sheet_columns sheet));
  st (write_original_columns (name uploaded_file) (py.join ", " original));;
  let df := mkDataFrame original (sheet_rows sheet) in
  df ← lift (pd.columns_str py.strip df);
  df ← lift (pd.columns_str (py.replace "."%char "") df);
  headers ← get common_headers;
  current_file_headers ← header_loop headers (columns df) [];
  match current_file_headers with
  | [] =>
      st (warning_no_common_headers (name uploaded_file));;
      continue
  | _ =>
      let cols_to_extract :=
        extract_loop
          (["Domicile"; "Legal Status"] ++
           filter (λ h, h ∉ ["Domicile"; "Legal Status"]) current_file_headers)
          (columns df) [] in
      extracted_df ← lift (pd.getitem_list df cols_to_extract);
      let extracted_df :=
        pd.setitem extracted_df "Source File" (Some (Text (name uploaded_file))) in
      mret (extracted_df, cols_to_extract)
  end.

(** The body of [try] (lines 47-84). *)
Definition try_body (uploaded_file : UploadedFile) : M unit :=
  '(extracted_df, cols_to_extract) ← extract uploaded_file;
  all ← get all_data_df;
  all ← lift (pd.concat [all; extracted_df]);
  set_all_data_df all;;
  incr_processed_files_count;;
  st (success_processed (name uploaded_file));;
  st (write_extracted_headers (py.join ", " cols_to_extract)).

(** One round of the loop: [try], [except Exception], [finally]. *)
Definition process_file (len i : nat) (uploaded_file : UploadedFile) (g : Globals) : Globals :=
  let (g, r) := try_body uploaded_file g in
  let g := match r with
           | Raise e => (st (error_processing (name uploaded_file) e) g).1
           | _ => g
           end in
  (st (progress (i + 1) len) g).1.

(** [for i, uploaded_file in enumerate(uploaded_files)], from index [i] on. *)
Fixpoint for_files (len i : nat) (files : list UploadedFile) (g : Globals) : Globals :=
  match files with
  | [] => g
  | uploaded_file :: files' =>
      for_files len (i + 1) files' (process_file len i uploaded_file g)
  end.

(** ** The analysis (lines 91-191) *)

(** A section of the analysis: what it puts on the page, and whether the
    script goes on after it.  When a label stands more than once in the table,
    [all_data_df[field]] is a frame and no column; the section is then marked
    with [not_a_series] and the analysis is followed no further. *)
Definition section := (list element * bool)%type.

(** Lines 100-119 and 123-142. *)
Definition distribution_first (df : DataFrame) (field : string) : section :=
  if decide (field ∈ columns df) then
    match pd.getitem df field with
    | Ok (pd.Series s) =>
        let counts := pd.sort_values_desc (pd.value_counts false s) in
        ([dataframe_counts field counts; write_top field (pd.head 5 counts);
          write_nunique field (pd.nunique s)], true)
    | _ => ([not_a_series field], false)
    end
  else ([info_no_column field], true).

(** Lines 147-155. *)
Definition most_frequent (df : DataFrame) (field : string) : section :=
  if decide (field ∈ columns df) then
    match pd.getitem df field with
    | Ok (pd.Series s) =>
        ([write_nunique field (pd.nunique s);
          write_top field (pd.head 5 (pd.value_counts true s))], true)
    | _ => ([not_a_series field], false)
    end
  else ([], true).

(** Lines 157-181. *)
Definition unique_first (df : DataFrame) (field : string) : section :=
  if decide (field ∈ columns df) then
    match pd.getitem df field with
    | Ok (pd.Series s) =>
        let counts := pd.sort_values_desc (pd.value_counts false s) in
        ([write_nunique field (pd.nunique s); dataframe_counts field counts], true)
    | _ => ([not_a_series field], false)
    end
  else ([], true).

(** The sections in order, up to the first after which the script is not
    followed. *)
Fixpoint until_stop (sections : list section) : list element :=
  match sections with
  | [] => []
  | (es, goes_on) :: rest => es ++ (if goes_on : bool then until_stop rest else [])
  end.

Definition string_le (a b : string) : Prop := String.leb a b = true.

#[global] Instance string_le_dec : RelDecision string_le.
Proof. intros a b. unfold string_le. apply _. Defined.

(** [sorted(list(s))] for a set of texts.  Python enumerates a set in no
    fixed order; [elements] stands for one enumeration. *)
Definition sorted (s : gset string) : list string :=
  merge_sort string_le (elements s).

Definition analysis (g : Globals) : list element :=
  let df := all_data_df g in
  [success_consolidated (processed_files_count g);
   dataframe_preview (mkDataFrame (columns df) (pd.head 5 (rows df)))] ++
  until_stop
    [distribution_first df "Domicile";
     distribution_first df "Legal Status";
     most_frequent df "Fund Name";
     most_frequent df "Promoter/Initiator";
     unique_first df "Industry";
     unique_first df "Asset Allocation";
     ([if decide (found_headers_across_files g = ∅) then warning_no_headers_extracted
       else write_found_headers (sorted (found_headers_across_files g))], true)].

(** The whole script, run once on the uploaded files (lines 20-194). *)
Definition script (uploaded_files : list UploadedFile) : Globals :=
  match uploaded_files with
  | [] => (st info_please_upload initial).1
  | _ =>
      let g := for_files (length uploaded_files) 0 uploaded_files initial in
      if pd.empty (all_data_df g) then (st warning_no_data g).1
      else mkGlobals (common_headers g) (all_data_df g) (processed_files_count g)
             (found_headers_across_files g) (page g ++ analysis g)
  end.

(** ** Notions the statements use *)

(** The first column matching each name, for the names that match one: what
    both loops of the script collect. *)
Definition first_matches (names cols : list string) : list string :=
  omap (λ n, head (matching_cols n cols)) names.

(** A round completes when the body of [try] ends without [continue] and
    without an exception: the file then counts as processed (line 81). *)
Definition completes (uploaded_file : UploadedFile) (g : Globals) : bool :=
  match (try_body uploaded_file g).2 with
  | Normal _ => true
  | _ => false
  end.

(** An extracted row with the file it comes from and the labels it stands
    under. *)
Record extracted_row := mkExtractedRow {
  from_file : string;
  under : list string;
  cells : list cell
}.

(** The rows [extracted_df] holds at line 79, for a round that completes. *)
Definition extracted_rows (uploaded_file : UploadedFile) (g : Globals) : list extracted_row :=
  match (extract uploaded_file g).2 with
  | Normal (extracted_df, _) =>
      if completes uploaded_file g
      then mkExtractedRow (name uploaded_file) (columns extracted_df) <$> rows extracted_df
      else []
  | _ => []
  end.

(** The extracted rows of all rounds of the loop, in order. *)
Fixpoint contributions (len i : nat) (files : list UploadedFile) (g : Globals) : list extracted_row :=
  match files with
  | [] => []
  | uploaded_file :: files' =>
      extracted_rows uploaded_file g ++
      contributions len (i + 1) files' (process_file len i uploaded_file g)
  end.

(** The files whose round completes, in order. *)
Fixpoint processed (len i : nat) (files : list UploadedFile) (g : Globals) : list UploadedFile :=
  match files with
  | [] => []
  | uploaded_file :: files' =>
      (if completes uploaded_file g then [uploaded_file] else []) ++
      processed len (i + 1) files' (process_file len i uploaded_file g)
  end.


(** A row keeps the values of an extracted row: every cell of the extracted
    row stands in the row under the same label. *)
Definition keeps (cols : list string) (r : list cell) (x : extracted_row) : Prop :=
  ∀ l v, (l, v) ∈ zip (under x) (cells x) → (l, v) ∈ zip cols r.

(** The cell of a row in the one column labelled [key]. *)
Definition cell_under (cols : list string) (key : string) (r : list cell) : option cell :=
  match pd.positions key cols with
  | [i] => r !! i
  | _ => None
  end.



(** The fields whose value-count table is put on the page. *)
Definition analysed_fields : list string :=
  ["Domicile"; "Legal Status"; "Industry"; "Asset Allocation"].

(** The fields whose number of distinct values is put on the page. *)
Definition counted_fields : list string :=
  ["Domicile"; "Legal Status"; "Fund Name"; "Promoter/Initiator"; "Industry";
   "Asset Allocation"].




(** Globals after more elements were put on the page, or more headers were
    added to the set of found headers. *)
Definition shown (g : Globals) (es : list element) : Globals :=
  mkGlobals (common_headers g) (all_data_df g) (processed_files_count g)
    (found_headers_across_files g) (page g ++ es).

Definition having_found (g : Globals) (hs : list string) : Globals :=
  mkGlobals (common_headers g) (all_data_df g) (processed_files_count g)
    (list_to_set hs ∪ found_headers_across_files g) (page g).

(** The names the second loop goes through (line 73). *)
Definition sought (current_file_headers : list string) : list string :=
  ["Domicile"; "Legal Status"] ++
  filter (λ h, h ∉ ["Domicile"; "Legal Status"]) current_file_headers.

(** What the loop keeps true of the globals.  [history] lists the extracted
    rows of the rounds done so far. *)
Definition label_ok (c : string) : Prop :=
  c = "Source File" ∨ ∃ h, h ∈ COMMON_HEADERS ∧ py.lower c = py.lower h.

Definition row_from (cols : list string) (r : list cell) (x : extracted_row) : Prop :=
  keeps cols r x ∧
  ("Source File", Some (Text (from_file x))) ∈ zip (under x) (cells x).

Record consolidated (g : Globals) (history : list extracted_row) : Prop := {
  headers_kept : common_headers g = COMMON_HEADERS;
  labels_ok : ∀ c, c ∈ columns (all_data_df g) → label_ok c;
  tag_once :
    all_data_df g = pd.DataFrame_ ∨
    ∃ p, pd.positions "Source File" (columns (all_data_df g)) = [p];
  rows_from :
    Forall2 (row_from (columns (all_data_df g))) (rows (all_data_df g)) history
}.

(** The elements the loop puts on the page. *)
Definition loop_element (e : element) : Prop :=
  match e with
  | write_processing _ | write_original_columns _ _ | warning_no_common_headers _
  | success_processed _ | write_extracted_headers _ | error_processing _ _
  | progress _ _ => True
  | _ => False
  end.

(** ** Sample uploads *)

(** Two sheets with the same two headers. *)
Definition funds_a : UploadedFile :=
  mkUploadedFile "a.xlsx"
    (Ok (mkSheet [Str "Domicile"; Str "Fund Name"]
           [[Some (Text "IE"); Some (Text "Alpha")]])).

Definition funds_b : UploadedFile :=
  mkUploadedFile "b.xlsx"
    (Ok (mkSheet [Str "Domicile"; Str "Fund Name"]
           [[Some (Text "LU"); Some (Text "Beta")];
            [Some (Text "IE"); Some (Text "Beta")]])).


(** A sheet with a period after a header, and a column that is no header. *)
Definition dotted : UploadedFile :=
  mkUploadedFile "dotted.xlsx"
    (Ok (mkSheet [Str "Auditor."; Str "Notes"]
           [[Some (Text "KPMG"); Some (Text "n/a")]])).

(** A sheet with no header of the list. *)
Definition unrelated : UploadedFile :=
  mkUploadedFile "unrelated.xlsx"
    (Ok (mkSheet [Str "Colour"; Str "Size"] [[Some (Text "red"); Some (Number 4)]])).

(** A sheet whose header 'domicile' is sought twice, so that the extracted
    frame has the column twice and cannot be re-aligned. *)
Definition lowercase : UploadedFile :=
  mkUploadedFile "lower.xlsx"
    (Ok (mkSheet [Str "domicile"; Str "Auditor"]
           [[Some (Text "IE"); Some (Text "PwC")]])).

(** A file pandas cannot read, and a sheet with a number as a header. *)
Definition broken : UploadedFile := mkUploadedFile "broken.xlsx" (Err ReadError).

Definition numbered : UploadedFile :=
  mkUploadedFile "numbered.xlsx"
    (Ok (mkSheet [Str "Domicile"; NotStr 2024] [[Some (Text "IE"); Some (Number 1)]])).


(** ** Kinds of elements on the page *)

(** The updates of the progress bar (line 89). *)
Definition is_progress (e : element) : bool :=
  match e with
  | progress _ _ => true
  | _ => false
  end.

(** The message that closes the work on a file: success (line 83), the
    warning before [continue] (line 67) or the error (line 87). *)
Definition is_verdict (e : element) : bool :=
  match e with
  | success_processed _ | warning_no_common_headers _ | error_processing _ _ => true
  | _ => false
  end.

Definition is_success (e : element) : bool :=
  match e with
  | success_processed _ => true
  | _ => false
  end.

(** The labels of the sheet of a file, when the file is read and every label
    is a text: what line 51 puts on the page. *)
Definition original_columns (uploaded_file : UploadedFile) : option (list string) :=
  match read_excel uploaded_file with
  | Ok sheet =>
      match tolist_str (sheet_columns sheet) with
      | Ok original => Some original
      | Err _ => None
      end
  | Err _ => None
  end.

(** The columns of a file that the first loop records as found (line 64):
    for every header, the first column of the file matching it. *)
Definition matched_columns (headers : list string) (uploaded_file : UploadedFile) : list string :=
  match original_columns uploaded_file with
  | Some original => first_matches headers (normalize <$> original)
  | None => []
  end.

(** A row of the consolidated table is filled for an extracted row when it
    has one cell under every label of the table and the missing value under
    each label the extracted row does not stand under. *)
Definition filled (cols : list string) (r : list cell) (x : extracted_row) : Prop :=
  length r = length cols ∧
  ∀ i c, cols !! i = Some c → c ∉ under x → r !! i = Some NaN.

(** * Properties *)

(** ** Text *)

Example lower_example : py.lower "ManCo/AIFM ID" = "manco/aifm id".
Proof. reflexivity. Qed.

Example strip_example : py.strip "  Legal Status	 " = "Legal Status".
Proof. reflexivity. Qed.

Example replace_example : py.replace "."%char "" "Sub.Fund. Name." = "SubFund Name".
Proof. reflexivity. Qed.











(** ** The header list *)

Lemma COMMON_HEADERS_length : length COMMON_HEADERS = 33.
Proof. reflexivity. Qed.

Lemma COMMON_HEADERS_normal :
  Forall (λ h, py.strip (py.lower h) = py.lower h ∧ py.lower h ≠ py.lower "Source File")
         COMMON_HEADERS.
Proof. apply (bool_decide_unpack _). by vm_compute. Qed.

Lemma COMMON_HEADERS_distinct : NoDup (py.lower <$> COMMON_HEADERS).
Proof. apply (bool_decide_unpack _). by vm_compute. Qed.

Lemma sought_first_in_headers :
  ["Domicile"; "Legal Status"] ⊆ COMMON_HEADERS.
Proof. apply (bool_decide_unpack _). by vm_compute. Qed.


(** ** The two loops *)

Lemma elem_of_matching_cols header cols col :
  col ∈ matching_cols header cols ↔ col ∈ cols ∧ py.lower col = py.lower header.
Proof. unfold matching_cols. rewrite list_elem_of_filter. tauto. Qed.

Lemma matching_cols_nil header cols :
  matching_cols header cols = [] ↔ ∀ col, col ∈ cols → py.lower col ≠ py.lower header.
Proof.
  split.
  - intros Hnil col Hin Heq.
    assert (col ∈ matching_cols header cols) as Hm by (by apply elem_of_matching_cols).
    rewrite Hnil in Hm. by apply elem_of_nil in Hm.
  - intros Hno. destruct (matching_cols header cols) as [|col rest] eqn:Hm; [done|].
    assert (col ∈ matching_cols header cols) as Hin by (rewrite Hm; left).
    apply elem_of_matching_cols in Hin as [Hin Heq]. by destruct (Hno col Hin).
Qed.

Lemma elem_of_first_matches names cols col :
  col ∈ first_matches names cols ↔
  ∃ n, n ∈ names ∧ head (matching_cols n cols) = Some col.
Proof. unfold first_matches. rewrite list_elem_of_omap. naive_solver. Qed.

Lemma first_matches_lower names cols col :
  col ∈ first_matches names cols →
  col ∈ cols ∧ ∃ n, n ∈ names ∧ py.lower col = py.lower n.
Proof.
  rewrite elem_of_first_matches. intros (n & Hn & Hhead).
  assert (col ∈ matching_cols n cols) as Hin.
  { destruct (matching_cols n cols); simplify_eq/=. left. }
  apply elem_of_matching_cols in Hin as [Hin Heq]. eauto.
Qed.

Lemma first_matches_found names cols n col :
  n ∈ names → col ∈ cols → py.lower col = py.lower n →
  ∃ col', col' ∈ first_matches names cols ∧ py.lower col' = py.lower n.
Proof.
  intros Hn Hcol Heq.
  assert (col ∈ matching_cols n cols) as Hin by (by apply elem_of_matching_cols).
  destruct (matching_cols n cols) as [|col' rest] eqn:Hm; [by apply elem_of_nil in Hin|].
  exists col'. split.
  - apply elem_of_first_matches. exists n. by rewrite Hm.
  - assert (col' ∈ matching_cols n cols) as Hin' by (rewrite Hm; left).
    by apply elem_of_matching_cols in Hin' as [_ ?].
Qed.

Lemma first_matches_nil names cols :
  first_matches names cols = [] ↔
  ∀ n col, n ∈ names → col ∈ cols → py.lower col ≠ py.lower n.
Proof.
  split.
  - intros Hnil n col Hn Hcol Heq.
    destruct (first_matches_found names cols n col) as (col' & Hin & _); [done..|].
    rewrite Hnil in Hin. by apply elem_of_nil in Hin.
  - intros Hno. destruct (first_matches names cols) as [|col rest] eqn:Hm; [done|].
    assert (col ∈ first_matches names cols) as Hin by (rewrite Hm; left).
    apply first_matches_lower in Hin as (Hcol & n & Hn & Heq).
    by destruct (Hno n col).
Qed.

Lemma extract_loop_run col_names cols acc :
  extract_loop col_names cols acc = acc ++ first_matches col_names cols.
Proof.
  revert acc. induction col_names as [|n col_names IH]; intros acc; simpl.
  - by rewrite app_nil_r.
  - unfold first_matches. simpl. destruct (matching_cols n cols) as [|col rest]; simpl.
    + apply IH.
    + rewrite IH. by rewrite <-app_assoc.
Qed.

Lemma header_loop_run headers cols acc g :
  header_loop headers cols acc g =
  (mkGlobals (common_headers g) (all_data_df g) (processed_files_count g)
     (list_to_set (first_matches headers cols) ∪ found_headers_across_files g) (page g),
   Normal (acc ++ first_matches headers cols)).
Proof.
  revert acc g. induction headers as [|h headers IH]; intros acc g; simpl.
  - rewrite app_nil_r. unfold mret, M_ret. destruct g. simpl. do 2 f_equal.
    by rewrite (left_id_L ∅ (∪)).
  - unfold first_matches. simpl. destruct (matching_cols h cols) as [|col rest]; simpl.
    + apply IH.
    + unfold mbind, M_bind, found_headers_add. simpl. rewrite IH. simpl.
      rewrite <-app_assoc. do 2 f_equal.
      fold (first_matches headers cols).
      rewrite (assoc_L (∪) (list_to_set _)).
      by rewrite (comm_L (∪) (list_to_set _) {[col]}).
Qed.

(** ** The body of [try], case by case *)

Lemma extract_run uploaded_file g :
  extract uploaded_file g =
  match read_excel uploaded_file with
  | Err e => (g, Raise e)
  | Ok sheet =>
      let g1 := shown g [write_processing (name uploaded_file)] in
      match tolist_str (sheet_columns sheet) with
      | Err e => (g1, Raise e)
      | Ok original =>
          let g2 := shown g [write_processing (name uploaded_file);
                             write_original_columns (name uploaded_file)
                               (py.join ", " original)] in
          if decide (original = []) then (g2, Raise AttributeError) else
          let cols := normalize <$> original in
          let current_file_headers := first_matches (common_headers g) cols in
          let g3 := having_found g2 current_file_headers in
          match current_file_headers with
          | [] => (shown g3 [warning_no_common_headers (name uploaded_file)], Continue)
          | _ =>
              let cols_to_extract := first_matches (sought current_file_headers) cols in
              match pd.getitem_list (mkDataFrame cols (sheet_rows sheet)) cols_to_extract with
              | Ok extracted_df =>
                  (g3, Normal (pd.setitem extracted_df "Source File"
                                 (Some (Text (name uploaded_file))), cols_to_extract))
              | Err e => (g3, Raise e)
              end
          end
      end
  end.
Proof.
  unfold extract, mbind, M_bind, lift.
  destruct (read_excel uploaded_file) as [sheet|e]; [|done].
  cbn [st]. destruct (tolist_str (sheet_columns sheet)) as [original|e]; [|done].
  unfold pd.columns_str. cbn [columns rows].
  destruct (decide (original = [])) as [->|Hne].
  { unfold shown. cbn. by rewrite <-app_assoc. }
  rewrite decide_False by (by intros ?%fmap_nil_inv).
  cbn [st get columns rows common_headers all_data_df processed_files_count
       found_headers_across_files page].
  rewrite header_loop_run, <-list_fmap_compose.
  change (py.replace "."%char "" ∘ py.strip) with normalize.
  cbn [common_headers all_data_df processed_files_count
       found_headers_across_files page].
  rewrite app_nil_l, <-app_assoc.
  destruct (first_matches (common_headers g) (normalize <$> original))
    as [|h current] eqn:Hcur.
  - reflexivity.
  - rewrite extract_loop_run, app_nil_l. fold (sought (h :: current)).
    by destruct (pd.getitem_list _ _).
Qed.

Lemma extract_frame uploaded_file g :
  common_headers (extract uploaded_file g).1 = common_headers g ∧
  all_data_df (extract uploaded_file g).1 = all_data_df g ∧
  processed_files_count (extract uploaded_file g).1 = processed_files_count g.
Proof.
  rewrite extract_run.
  destruct (read_excel uploaded_file) as [sheet|e]; [|done].
  destruct (tolist_str (sheet_columns sheet)) as [original|e]; [|done].
  cbv zeta. destruct (decide (original = [])); [done|].
  destruct (first_matches _ _); [done|].
  by destruct (pd.getitem_list _ _).
Qed.

Lemma try_body_run uploaded_file g :
  try_body uploaded_file g =
  match extract uploaded_file g with
  | (g1, Normal (extracted_df, cols_to_extract)) =>
      match pd.concat [all_data_df g1; extracted_df] with
      | Ok all =>
          (shown (mkGlobals (common_headers g1) all (processed_files_count g1 + 1)
                    (found_headers_across_files g1) (page g1))
             [success_processed (name uploaded_file);
              write_extracted_headers (py.join ", " cols_to_extract)], Normal ())
      | Err e => (g1, Raise e)
      end
  | (g1, Continue) => (g1, Continue)
  | (g1, Raise e) => (g1, Raise e)
  end.
Proof.
  unfold try_body, mbind, M_bind.
  destruct (extract uploaded_file g) as [g1 [[extracted_df cols_to_extract]| |e]]; [|done..].
  unfold get, lift. destruct (pd.concat _) as [all|e]; [|done].
  unfold shown, set_all_data_df, incr_processed_files_count, st. cbn.
  by rewrite <-app_assoc.
Qed.

(** ** Table operations *)

Lemma elem_of_unique {A} `{EqDecision A} (l : list A) x : x ∈ unique l ↔ x ∈ l.
Proof. unfold unique. by rewrite elem_of_reverse, elem_of_remove_dups, elem_of_reverse. Qed.

Lemma NoDup_unique {A} `{EqDecision A} (l : list A) : NoDup (unique l).
Proof. unfold unique. rewrite reverse_Permutation. apply NoDup_remove_dups. Qed.

Lemma elem_of_positions key cols i :
  i ∈ pd.positions key cols ↔ cols !! i = Some key.
Proof.
  revert i. induction cols as [|c cols IH]; intros i; simpl.
  - split; [by intros ?%elem_of_nil|done].
  - rewrite elem_of_app, list_elem_of_fmap. destruct i as [|i]; simpl.
    + split.
      * intros [Hin|(j & ? & _)]; [|done].
        destruct (decide (c = key)) as [->|]; [done|by apply elem_of_nil in Hin].
      * intros [= ->]. left. rewrite decide_True by done. left.
    + rewrite <-IH. split.
      * intros [Hin|(j & [= ->] & Hj)]; [|done].
        destruct (decide (c = key)); [|by apply elem_of_nil in Hin].
        by apply list_elem_of_singleton in Hin.
      * intros Hin. right. eauto.
Qed.

Lemma NoDup_positions key cols : NoDup (pd.positions key cols).
Proof.
  induction cols as [|c cols IH]; simpl; [constructor|].
  apply NoDup_app. split_and!.
  - destruct (decide (c = key)); [apply NoDup_singleton|constructor].
  - intros i Hi (j & -> & _)%list_elem_of_fmap.
    destruct (decide (c = key)); [|by apply elem_of_nil in Hi].
    by apply list_elem_of_singleton in Hi.
  - apply NoDup_fmap_2; [apply _|done].
Qed.

Lemma positions_nil key cols : pd.positions key cols = [] ↔ key ∉ cols.
Proof.
  split.
  - intros Hnil (i & Hi)%list_elem_of_lookup.
    apply elem_of_positions in Hi. rewrite Hnil in Hi. by apply elem_of_nil in Hi.
  - intros Hnot. destruct (pd.positions key cols) as [|i idx] eqn:Hp; [done|].
    assert (i ∈ pd.positions key cols) as Hi by (rewrite Hp; left).
    apply elem_of_positions in Hi. destruct Hnot. by eapply list_elem_of_lookup_2.
Qed.

(** A label that stands once in a list without repetition has one position. *)
Lemma positions_once key cols :
  NoDup cols → key ∈ cols → ∃ i, pd.positions key cols = [i].
Proof.
  intros Hnd Hin.
  destruct (pd.positions key cols) as [|i [|j idx]] eqn:Hp.
  - apply positions_nil in Hp. contradiction.
  - eauto.
  - assert (i ∈ pd.positions key cols ∧ j ∈ pd.positions key cols) as [Hi Hj]
      by (rewrite Hp; split; [left|right; left]).
    apply elem_of_positions in Hi, Hj.
    pose proof (NoDup_lookup _ _ _ _ Hnd Hi Hj) as ->.
    pose proof (NoDup_positions key cols) as Hnd'. rewrite Hp in Hnd'.
    apply NoDup_cons in Hnd' as [Hnot _]. destruct Hnot. left.
Qed.

Lemma positions_app_fresh key cols :
  key ∉ cols → pd.positions key (cols ++ [key]) = [length cols].
Proof.
  induction cols as [|c cols IH]; simpl; intros Hnot.
  - by rewrite decide_True.
  - apply not_elem_of_cons in Hnot as [Hne Hnot].
    rewrite decide_False by done. simpl. by rewrite IH.
Qed.

Lemma indexer_spec cols keys idx :
  pd.indexer cols keys = Ok idx →
  Forall (λ i, ∃ k, k ∈ keys ∧ cols !! i = Some k) idx.
Proof.
  revert idx. induction keys as [|k keys IH]; intros idx; simpl.
  - intros [= <-]. constructor.
  - destruct (pd.positions k cols) as [|p ps] eqn:Hp; [done|].
    destruct (pd.indexer cols keys) as [qs|]; [|done].
    intros [= <-]. rewrite app_comm_cons, <-Hp. apply Forall_app. split.
    + apply Forall_forall. intros i Hi. exists k. split; [left|].
      by apply elem_of_positions.
    + eapply Forall_impl; [by apply IH|].
      intros i (k' & Hk' & Hi). exists k'. split; [by right|done].
Qed.

Lemma indexer_total cols keys :
  keys ⊆ cols → ∃ idx, pd.indexer cols keys = Ok idx.
Proof.
  induction keys as [|k keys IH]; intros Hsub; simpl; [eauto|].
  destruct (pd.positions k cols) as [|p ps] eqn:Hp.
  - apply positions_nil in Hp. destruct Hp. apply Hsub. left.
  - destruct IH as [qs ->]; [|eauto].
    intros x Hx. apply Hsub. by right.
Qed.

Lemma getitem_list_spec df keys extracted_df :
  pd.getitem_list df keys = Ok extracted_df →
  (∀ c, c ∈ columns extracted_df → c ∈ keys ∧ c ∈ columns df) ∧
  length (rows extracted_df) = length (rows df) ∧
  Forall (λ r, length r = length (columns extracted_df)) (rows extracted_df).
Proof.
  unfold pd.getitem_list.
  destruct (pd.indexer (columns df) keys) as [idx|] eqn:Hidx; [|done].
  intros [= <-]. simpl. apply indexer_spec in Hidx. split_and!.
  - intros c (i & -> & Hi)%list_elem_of_fmap.
    rewrite Forall_forall in Hidx. destruct (Hidx i Hi) as (k & Hk & Hlook).
    rewrite Hlook. simpl. split; [done|]. by eapply list_elem_of_lookup_2.
  - by rewrite length_fmap.
  - apply Forall_fmap, Forall_forall. intros r _. simpl.
    unfold pd.take_cells. by rewrite !length_fmap.
Qed.

Lemma getitem_list_total df keys :
  keys ⊆ columns df → ∃ extracted_df, pd.getitem_list df keys = Ok extracted_df.
Proof.
  intros Hsub. unfold pd.getitem_list.
  destruct (indexer_total _ _ Hsub) as [idx ->]. eauto.
Qed.

Lemma setitem_fresh df key v :
  key ∉ columns df →
  pd.setitem df key v = mkDataFrame (columns df ++ [key]) ((λ r, r ++ [v]) <$> rows df).
Proof. intros Hnot. unfold pd.setitem. by rewrite decide_False. Qed.

Lemma reindex_length cols new_cols r : length (pd.reindex cols new_cols r) = length new_cols.
Proof. unfold pd.reindex. by rewrite length_fmap. Qed.

(** Re-aligning keeps every labelled cell whose label stays. *)
Lemma reindex_keeps cols new_cols r l (v : cell) :
  NoDup cols → l ∈ new_cols →
  (l, v) ∈ zip cols r → (l, v) ∈ zip new_cols (pd.reindex cols new_cols r).
Proof.
  intros Hnd Hl Hin.
  apply elem_of_lookup_zip_with in Hin as (i & l' & v' & [= <- <-] & Hi & Hr).
  apply list_elem_of_lookup in Hl as [j Hj].
  apply elem_of_lookup_zip_with. exists j, l, v. split_and!; [done..|].
  unfold pd.reindex. rewrite list_lookup_fmap, Hj. simpl.
  assert (list_find (λ c, c = l) cols = Some (i, l)) as ->.
  { apply list_find_Some. split_and!; [done..|].
    intros k y Hk Hlt ->. pose proof (NoDup_lookup _ _ _ _ Hnd Hi Hk). lia. }
  by rewrite Hr.
Qed.

Lemma align_keeps new_cols df rs :
  pd.align new_cols df = Ok rs →
  columns df ⊆ new_cols →
  Forall2 (λ r' r, ∀ l v, (l, v) ∈ zip (columns df) r → (l, v) ∈ zip new_cols r')
          rs (rows df).
Proof.
  unfold pd.align. intros Halign Hsub.
  destruct (decide (columns df = new_cols)) as [<-|Hne].
  - injection Halign as <-. by apply Forall_Forall2_diag, Forall_forall.
  - destruct (decide (NoDup (columns df))) as [Hnd|]; [|done].
    injection Halign as <-. apply Forall2_fmap_l, Forall_Forall2_diag, Forall_forall.
    intros r _ l v Hin. apply reindex_keeps; [done| |done].
    apply Hsub. by apply elem_of_zip_l in Hin.
Qed.

Lemma align_length new_cols df rs :
  pd.align new_cols df = Ok rs → length rs = length (rows df).
Proof.
  unfold pd.align. destruct (decide (columns df = new_cols)); [by intros [= <-]|].
  destruct (decide (NoDup (columns df))); [|done].
  intros [= <-]. by rewrite length_fmap.
Qed.

Lemma elem_of_union_indexes idxs c :
  c ∈ pd.union_indexes idxs ↔ ∃ i, i ∈ idxs ∧ c ∈ i.
Proof.
  destruct idxs as [|i rest]; unfold pd.union_indexes.
  - split; [by intros ?%elem_of_nil|by intros (? & ?%elem_of_nil & _)].
  - destruct (forallb _ rest) eqn:Hall.
    + apply Is_true_true, forallb_True in Hall. rewrite Forall_forall in Hall. split.
      * intros Hc. exists i. split; [left|done].
      * intros (j & [->|Hj]%elem_of_cons & Hc); [done|].
        apply Hall, bool_decide_unpack in Hj. by subst.
    + rewrite elem_of_unique, list_elem_of_join. naive_solver.
Qed.

Lemma union_indexes_cases idxs :
  Forall (λ i, i = pd.union_indexes idxs) idxs ∨ NoDup (pd.union_indexes idxs).
Proof.
  destruct idxs as [|i rest]; unfold pd.union_indexes; [by left|].
  destruct (forallb _ rest) eqn:Hall.
  - left. apply Is_true_true, forallb_True in Hall. constructor; [done|].
    eapply Forall_impl; [exact Hall|]. intros j Hj. by apply bool_decide_unpack in Hj.
  - right. apply NoDup_unique.
Qed.

(** [pd.concat] of the table so far and a frame with at least one column. *)
Lemma concat_pair a e d :
  pd.concat [a; e] = Ok d →
  columns e ≠ [] →
  ∃ ra re,
    rows d = ra ++ re ∧
    pd.align (columns d) a = Ok ra ∧
    pd.align (columns d) e = Ok re ∧
    (∀ c, c ∈ columns d ↔ c ∈ columns a ∨ c ∈ columns e) ∧
    (columns e = columns d ∨ NoDup (columns d)).
Proof.
  intros Hconcat Hne. unfold pd.concat in Hconcat.
  assert (0 < length (rows e) + length (columns e)) as He.
  { destruct (columns e); [done|simpl; lia]. }
  rewrite !filter_cons, filter_nil in Hconcat.
  rewrite (decide_True (P := 0 < length (rows e) + length (columns e))) in Hconcat by done.
  destruct (decide (0 < length (rows a) + length (columns a))) as [Ha|Ha].
  - cbn [pd.align_all fmap list_fmap] in Hconcat.
    set (new_cols := pd.union_indexes [columns a; columns e]) in *.
    destruct (pd.align new_cols a) as [ra|] eqn:Hra; [|done].
    destruct (pd.align new_cols e) as [re|] eqn:Hre; [|done].
    injection Hconcat as <-. exists ra, re. cbn [columns rows]. split_and!.
    + by rewrite app_nil_r.
    + done.
    + done.
    + intros c. unfold new_cols. rewrite elem_of_union_indexes. split.
      * intros (i & Hi & Hc). set_unfold. naive_solver.
      * intros [Hc|Hc]; [exists (columns a)|exists (columns e)]; set_unfold; naive_solver.
    + destruct (union_indexes_cases [columns a; columns e]) as [Hall|Hnd]; [|by right].
      left. apply Forall_cons in Hall as [_ Hall].
      by apply Forall_cons in Hall as [-> _].
  - cbn in Hconcat. unfold pd.align in Hconcat at 1.
    rewrite decide_True, app_nil_r in Hconcat by done.
    injection Hconcat as <-. exists [], (rows e). cbn [columns rows].
    assert (rows a = [] ∧ columns a = []) as [Hrows Hcols].
    { destruct (rows a), (columns a); simpl in Ha; (done || lia). }
    split_and!.
    + done.
    + unfold pd.align. rewrite Hrows, Hcols.
      destruct (decide ([] = columns e)) as [Heq|_]; [done|].
      rewrite decide_True by constructor. done.
    + unfold pd.align. by rewrite decide_True.
    + intros c. rewrite Hcols. set_unfold. naive_solver.
    + by left.
Qed.

(** ** The frame a file contributes *)

Lemma sought_lower headers cols n :
  n ∈ sought (first_matches headers cols) →
  ∃ h, h ∈ ["Domicile"; "Legal Status"] ++ headers ∧ py.lower n = py.lower h.
Proof.
  unfold sought. rewrite elem_of_app, list_elem_of_filter.
  intros [Hn|[_ Hn]].
  - exists n. split; [|done]. apply elem_of_app. by left.
  - apply first_matches_lower in Hn as (_ & h & Hh & Heq).
    exists h. split; [|done]. apply elem_of_app. by right.
Qed.

Lemma header_not_source_file c h :
  h ∈ COMMON_HEADERS → py.lower c = py.lower h → c ≠ "Source File".
Proof.
  intros Hh Heq ->. pose proof COMMON_HEADERS_normal as Hall.
  rewrite Forall_forall in Hall. destruct (Hall h Hh) as [_ Hne]. by destruct Hne.
Qed.

Lemma extract_normal uploaded_file g g1 extracted_df cols_to_extract :
  extract uploaded_file g = (g1, Normal (extracted_df, cols_to_extract)) →
  common_headers g = COMMON_HEADERS →
  ∃ sheet labels,
    read_excel uploaded_file = Ok sheet ∧
    columns extracted_df = labels ++ ["Source File"] ∧
    (∀ c, c ∈ labels → ∃ h, h ∈ COMMON_HEADERS ∧ py.lower c = py.lower h) ∧
    pd.positions "Source File" (columns extracted_df) = [length labels] ∧
    length (rows extracted_df) = length (sheet_rows sheet) ∧
    Forall (λ r, ("Source File", Some (Text (name uploaded_file)))
                   ∈ zip (columns extracted_df) r) (rows extracted_df).
Proof.
  rewrite extract_run. intros Hrun Hheaders.
  destruct (read_excel uploaded_file) as [sheet|]; [|done].
  destruct (tolist_str (sheet_columns sheet)) as [original|]; [|done].
  cbv zeta in Hrun. destruct (decide (original = [])) as [|Hne]; [done|].
  set (cols := normalize <$> original) in *.
  destruct (first_matches (common_headers g) cols) as [|h0 current] eqn:Hcur;
    [discriminate Hrun|].
  rewrite <-Hcur in Hrun.
  destruct (pd.getitem_list _ _) as [e|] eqn:Hget; [|discriminate Hrun].
  injection Hrun as _ <- _.
  apply getitem_list_spec in Hget as (Hcols & Hlen & Hwf). simpl in Hlen.
  assert (∀ c, c ∈ columns e → ∃ h, h ∈ COMMON_HEADERS ∧ py.lower c = py.lower h)
    as Hmatch.
  { intros c [Hc _]%Hcols. apply first_matches_lower in Hc as (_ & n & Hn & Heq).
    apply sought_lower in Hn as (h & Hh & Heq'). exists h. split; [|congruence].
    rewrite Hheaders in Hh.
    apply elem_of_app in Hh as [Hh|Hh]; [|exact Hh]. by apply sought_first_in_headers. }
  assert ("Source File" ∉ columns e) as Hfresh.
  { intros (h & Hh & Heq)%Hmatch. by eapply header_not_source_file. }
  exists sheet, (columns e). rewrite setitem_fresh by done. cbn [columns rows].
  split_and!; [done..| | |].
  - by apply positions_app_fresh.
  - by rewrite length_fmap.
  - apply Forall_fmap. eapply Forall_impl; [exact Hwf|].
    intros r Hr. cbn [compose]. rewrite zip_with_app by done.
    apply elem_of_app. right. left.
Qed.

(** ** One round of the loop *)

Lemma process_file_run len i uploaded_file g :
  process_file len i uploaded_file g =
  shown (match (try_body uploaded_file g).2 with
         | Raise e => shown (try_body uploaded_file g).1
                        [error_processing (name uploaded_file) e]
         | _ => (try_body uploaded_file g).1
         end) [progress (i + 1) len].
Proof.
  unfold process_file. destruct (try_body uploaded_file g) as [g1 [[]| |e]]; done.
Qed.

(** A round either completes, and then the table becomes the concatenation
    of the table and the extracted frame, or leaves table and count alone. *)
Lemma round_cases len i uploaded_file g :
  (∃ g1 extracted_df cols_to_extract,
     extract uploaded_file g = (g1, Normal (extracted_df, cols_to_extract)) ∧
     pd.concat [all_data_df g; extracted_df]
       = Ok (all_data_df (process_file len i uploaded_file g)) ∧
     completes uploaded_file g = true ∧
     extracted_rows uploaded_file g
       = mkExtractedRow (name uploaded_file) (columns extracted_df) <$> rows extracted_df ∧
     processed_files_count (process_file len i uploaded_file g)
       = processed_files_count g + 1 ∧
     common_headers (process_file len i uploaded_file g) = common_headers g)
  ∨ (completes uploaded_file g = false ∧
     extracted_rows uploaded_file g = [] ∧
     all_data_df (process_file len i uploaded_file g) = all_data_df g ∧
     processed_files_count (process_file len i uploaded_file g)
       = processed_files_count g ∧
     common_headers (process_file len i uploaded_file g) = common_headers g).
Proof.
  rewrite process_file_run. unfold completes, extracted_rows, completes.
  rewrite try_body_run.
  pose proof (extract_frame uploaded_file g) as (Hh & Hdf & Hn).
  destruct (extract uploaded_file g) as [g1 [[e cte]| |x]] eqn:Hext;
    simpl in Hh, Hdf, Hn.
  - rewrite Hdf. destruct (pd.concat [all_data_df g; e]) as [d|x] eqn:Hc.
    + left. exists g1, e, cte. simpl. rewrite Hn, Hh. done.
    + right. simpl. by rewrite Hh, Hdf, Hn.
  - right. simpl. by rewrite Hh, Hdf, Hn.
  - right. simpl. by rewrite Hh, Hdf, Hn.
Qed.

Lemma Forall2_with_right {A B} (R : A → B → Prop) (P : B → Prop) l k :
  Forall2 R l k → Forall P k → Forall2 (λ x y, R x y ∧ P y) l k.
Proof.
  induction 1 as [|x y l k HR _ IH]; intros HP; [constructor|].
  apply Forall_cons in HP as [? ?]. constructor; auto.
Qed.

Lemma consolidated_initial : consolidated initial [].
Proof.
  split; simpl; [done| |by left|constructor].
  by intros c ?%elem_of_nil.
Qed.

Lemma process_file_consolidated len i uploaded_file g history :
  consolidated g history →
  consolidated (process_file len i uploaded_file g)
    (history ++ extracted_rows uploaded_file g).
Proof.
  intros [Hheaders Hlabels Htag Hrows].
  destruct (round_cases len i uploaded_file g)
    as [(g1 & e & cte & Hext & Hconcat & _ & -> & _ & Hh)
       |(_ & -> & Hdf & _ & Hh)].
  - set (d := all_data_df (process_file len i uploaded_file g)) in *.
    destruct (extract_normal _ _ _ _ _ Hext Hheaders)
      as (sheet & labels & _ & Hcols & Hmatch & Hpos & _ & Hsrc).
    destruct (concat_pair _ _ _ Hconcat) as (ra & re & Hd & Hra & Hre & Hin & Hshape).
    { rewrite Hcols. by destruct labels. }
    split; fold d.
    + congruence.
    + intros c [Hc|Hc]%Hin; [by apply Hlabels|].
      rewrite Hcols in Hc. apply elem_of_app in Hc as [Hc|Hc].
      * right. by apply Hmatch.
      * left. by apply list_elem_of_singleton in Hc.
    + right. destruct Hshape as [<-|Hnd]; [eauto|].
      apply positions_once; [done|]. apply Hin. right. rewrite Hcols.
      apply elem_of_app. right. left.
    + rewrite Hd. apply Forall2_app.
      * apply align_keeps in Hra; [|intros c Hc; apply Hin; by left].
        eapply Forall2_trans; [|exact Hra|exact Hrows].
        intros r' r x Hkeep [Hx Hsf]. split; [|done].
        intros l v Hlv. by apply Hkeep, Hx.
      * apply align_keeps in Hre; [|intros c Hc; apply Hin; by right].
        apply Forall2_fmap_r.
        eapply Forall2_impl; [apply (Forall2_with_right _ _ _ _ Hre Hsrc)|].
        intros r' r [Hkeep Hsf]. split; [exact Hkeep|exact Hsf].
  - rewrite app_nil_r. split; rewrite ?Hdf; [congruence|done..].
Qed.

Lemma for_files_consolidated files len i g history :
  consolidated g history →
  consolidated (for_files len i files g) (history ++ contributions len i files g).
Proof.
  revert i g history. induction files as [|f files IH]; intros i g history Hinv; simpl.
  - by rewrite app_nil_r.
  - rewrite app_assoc. by apply IH, process_file_consolidated.
Qed.

(** ** The whole loop and the script *)

Lemma script_globals files :
  common_headers (script files)
    = common_headers (for_files (length files) 0 files initial) ∧
  all_data_df (script files)
    = all_data_df (for_files (length files) 0 files initial) ∧
  processed_files_count (script files)
    = processed_files_count (for_files (length files) 0 files initial) ∧
  found_headers_across_files (script files)
    = found_headers_across_files (for_files (length files) 0 files initial).
Proof.
  unfold script. destruct files as [|f files]; [done|].
  by destruct (pd.empty _).
Qed.



Lemma for_files_count files len i g :
  processed_files_count (for_files len i files g)
  = processed_files_count g + length (processed len i files g).
Proof.
  revert i g. induction files as [|f files IH]; intros i g; simpl; [lia|].
  rewrite IH, length_app.
  destruct (round_cases len i f g)
    as [(g1 & e & cte & _ & _ & -> & _ & -> & _)|(-> & _ & _ & -> & _)];
    simpl; lia.
Qed.

Lemma for_files_headers files len i g :
  common_headers (for_files len i files g) = common_headers g.
Proof.
  revert i g. induction files as [|f files IH]; intros i g; simpl; [done|].
  rewrite IH.
  by destruct (round_cases len i f g)
    as [(g1 & e & cte & _ & _ & _ & _ & _ & ->)|(_ & _ & _ & _ & ->)].
Qed.

Lemma tagged_cell cols r x p :
  row_from cols r x →
  pd.positions "Source File" cols = [p] →
  cell_under cols "Source File" r = Some (Some (Text (from_file x))).
Proof.
  intros [Hkeep Hsf] Hpos. apply Hkeep in Hsf.
  apply elem_of_lookup_zip_with in Hsf as (i & l & v & [= <- <-] & Hi & Hr).
  apply elem_of_positions in Hi. rewrite Hpos in Hi.
  apply list_elem_of_singleton in Hi as ->.
  unfold cell_under. by rewrite Hpos.
Qed.

(** C2: every row of the consolidated table holds, in its one column
    'Source File', the name of the uploaded file the row was extracted from:
    the rows of the table and the extracted rows of the rounds that completed
    correspond one to one, in order, and each row carries the file name of
    its extracted row. *)
Theorem source_file_names_the_origin (files : list UploadedFile) :
  Forall2
    (λ r x,
       cell_under (columns (all_data_df (script files))) "Source File" r
       = Some (Some (Text (from_file x))))
    (rows (all_data_df (script files)))
    (contributions (length files) 0 files initial).
Proof.
  destruct (script_globals files) as (_ & -> & _).
  destruct (for_files_consolidated files (length files) 0 initial []
              consolidated_initial) as [_ _ Htag Hrows].
  rewrite app_nil_l in Hrows.
  destruct Htag as [Hempty|[p Hpos]].
  - rewrite Hempty in *. simpl in *.
    apply Forall2_nil_inv_l in Hrows as ->. constructor.
  - eapply Forall2_impl; [exact Hrows|].
    intros r x Hfrom. by eapply tagged_cell.
Qed.


(** C4: at every point of the loop and at the end of the script, each column
    of the consolidated table is the tag 'Source File' or matches, up to
    case, one of the 33 entries of COMMON_HEADERS, and the variable
    COMMON_HEADERS still holds the list it was given. *)
Theorem only_common_headers_consolidated
    (files : list UploadedFile) (len i : nat) (g : Globals) :
  g = script files ∨ g = for_files len i files initial →
  common_headers g = COMMON_HEADERS ∧
  length (common_headers g) = 33 ∧
  ∀ c, c ∈ columns (all_data_df g) →
       c = "Source File" ∨ ∃ h, h ∈ COMMON_HEADERS ∧ py.lower c = py.lower h.
Proof.
  intros Hg.
  assert (common_headers g = COMMON_HEADERS ∧
          ∃ len' i', all_data_df g = all_data_df (for_files len' i' files initial))
    as (Hheaders & len' & i' & Hdf).
  { destruct Hg as [->| ->].
    - destruct (script_globals files) as (-> & -> & _).
      rewrite for_files_headers. eauto.
    - rewrite for_files_headers. eauto. }
  split_and!; [done|by rewrite Hheaders|].
  rewrite Hdf.
  destruct (for_files_consolidated files len' i' initial [] consolidated_initial)
    as [_ Hlabels _ _].
  exact Hlabels.
Qed.

(** ** The page *)

Lemma process_file_page len i uploaded_file g :
  ∃ es, page (process_file len i uploaded_file g) = page g ++ es ∧
        Forall loop_element es.
Proof.
  rewrite process_file_run, try_body_run, extract_run.
  destruct (read_excel uploaded_file) as [sheet|x].
  2:{ eexists. split; [cbn; by rewrite <-app_assoc|]. by repeat constructor. }
  destruct (tolist_str (sheet_columns sheet)) as [original|x].
  2:{ eexists. split; [cbn; by rewrite <-!app_assoc|]. by repeat constructor. }
  cbv zeta. destruct (decide (original = [])).
  { eexists. split; [cbn; by rewrite <-!app_assoc|]. by repeat constructor. }
  destruct (first_matches _ _) as [|h current].
  { eexists. split; [cbn; by rewrite <-!app_assoc|]. by repeat constructor. }
  destruct (pd.getitem_list _ _) as [e|x].
  2:{ eexists. split; [cbn; by rewrite <-!app_assoc|]. by repeat constructor. }
  destruct (pd.concat _) as [d|x].
  - eexists. split; [cbn; by rewrite <-!app_assoc|]. by repeat constructor.
  - eexists. split; [cbn; by rewrite <-!app_assoc|]. by repeat constructor.
Qed.

Lemma for_files_page files len i g :
  ∃ es, page (for_files len i files g) = page g ++ es ∧ Forall loop_element es.
Proof.
  revert i g. induction files as [|f files IH]; intros i g; simpl.
  - exists []. by rewrite app_nil_r.
  - destruct (IH (i + 1) (process_file len i f g)) as (es & -> & Hes).
    destruct (process_file_page len i f g) as (es' & -> & Hes').
    exists (es' ++ es). rewrite <-app_assoc. split; [done|]. by apply Forall_app.
Qed.

Lemma script_run files :
  script files =
  match files with
  | [] => shown initial [info_please_upload]
  | _ =>
      let g := for_files (length files) 0 files initial in
      shown g (if pd.empty (all_data_df g) then [warning_no_data] else analysis g)
  end.
Proof.
  unfold script. destruct files as [|f files]; [done|].
  cbv zeta. by destruct (pd.empty _).
Qed.

Lemma analysis_shown g es : analysis (shown g es) = analysis g.
Proof. done. Qed.

(** What is on the page besides the elements of the loop is the analysis of
    the final table. *)
Lemma script_page files e :
  e ∈ page (script files) → ¬ loop_element e →
  e = info_please_upload ∨ e = warning_no_data ∨
  (pd.empty (all_data_df (script files)) = false ∧ e ∈ analysis (script files)).
Proof.
  rewrite script_run. destruct files as [|f files].
  { cbn. intros ->%list_elem_of_singleton. by left. }
  cbv zeta. generalize (length (f :: files)). intros len.
  destruct (for_files_page (f :: files) len 0 initial) as (es & Hpage & Hes).
  rewrite Forall_forall in Hes.
  rewrite analysis_shown. cbn [shown page all_data_df]. rewrite Hpage.
  destruct (pd.empty _) eqn:Hempty.
  - intros [[He|He]%elem_of_app| ->%list_elem_of_singleton]%elem_of_app Hnot; [| |auto].
    + by apply elem_of_nil in He.
    + by destruct Hnot; apply Hes.
  - intros [[He|He]%elem_of_app|He]%elem_of_app Hnot; [| |auto].
    + by apply elem_of_nil in He.
    + by destruct Hnot; apply Hes.
Qed.

#[local] Instance by_count_desc_total : Total pd.by_count_desc.
Proof. intros x y. unfold pd.by_count_desc. lia. Qed.

Lemma sort_values_desc_perm t : pd.sort_values_desc t ≡ₚ t.
Proof. apply merge_sort_Permutation. Qed.

#[local] Instance by_count_desc_trans : Transitive pd.by_count_desc.
Proof. intros x y z. unfold pd.by_count_desc. lia. Qed.

Lemma sort_values_desc_sorted t :
  StronglySorted pd.by_count_desc (pd.sort_values_desc t).
Proof. apply (StronglySorted_merge_sort _). Qed.



Lemma getitem_series df key s :
  pd.getitem df key = Ok (pd.Series s) →
  ∃ p, pd.positions key (columns df) = [p] ∧
       s = (λ r, default None (r !! p)) <$> rows df.
Proof.
  unfold pd.getitem. destruct (pd.positions key (columns df)) as [|p [|q idx]]; [done| |done].
  intros [= <-]. eauto.
Qed.

Lemma elem_of_until_stop sections e :
  e ∈ until_stop sections → ∃ sec, sec ∈ sections ∧ e ∈ sec.1.
Proof.
  induction sections as [|[es goes_on] sections IH]; simpl.
  - by intros ?%elem_of_nil.
  - intros [He|He]%elem_of_app.
    + exists (es, goes_on). split; [left|done].
    + destruct goes_on; [|by apply elem_of_nil in He].
      destruct (IH He) as (sec & Hsec & Hin). exists sec. split; [by right|done].
Qed.

Lemma section_counts df f field t :
  dataframe_counts field t ∈ (distribution_first df f).1 ∨
  dataframe_counts field t ∈ (unique_first df f).1 →
  field = f ∧ ∃ s, pd.getitem df f = Ok (pd.Series s) ∧
                   t = pd.sort_values_desc (pd.value_counts false s).
Proof.
  unfold distribution_first, unique_first. destruct (decide (f ∈ columns df)).
  - destruct (pd.getitem df f) as [[s|]|]; cbn [fst];
      rewrite ?elem_of_cons, ?elem_of_nil; naive_solver.
  - cbn [fst]. rewrite ?elem_of_cons, ?elem_of_nil. naive_solver.
Qed.

Lemma most_frequent_counts df f field t :
  dataframe_counts field t ∉ (most_frequent df f).1.
Proof.
  unfold most_frequent. destruct (decide (f ∈ columns df)).
  - destruct (pd.getitem df f) as [[s|]|]; cbn [fst];
      rewrite ?elem_of_cons, ?elem_of_nil; naive_solver.
  - by intros ?%elem_of_nil.
Qed.

Lemma analysis_counts g field t :
  dataframe_counts field t ∈ analysis g →
  field ∈ analysed_fields ∧
  ∃ s, pd.getitem (all_data_df g) field = Ok (pd.Series s) ∧
       t = pd.sort_values_desc (pd.value_counts false s).
Proof.
  unfold analysis, analysed_fields. cbv zeta.
  intros [Hin|Hin]%elem_of_app.
  { rewrite !elem_of_cons, elem_of_nil in Hin. by destruct Hin as [|[|[]]]. }
  apply elem_of_until_stop in Hin as (sec & Hsec & Hin).
  rewrite !elem_of_cons, elem_of_nil in Hsec.
  destruct Hsec as [->|[->|[->|[->|[->|[->|[->|[]]]]]]]].
  - destruct (section_counts (all_data_df g) "Domicile" field t) as [-> Hs]; auto.
    split; [|done]. rewrite !elem_of_cons. auto.
  - destruct (section_counts (all_data_df g) "Legal Status" field t) as [-> Hs]; auto.
    split; [|done]. rewrite !elem_of_cons. auto.
  - by apply most_frequent_counts in Hin.
  - by apply most_frequent_counts in Hin.
  - destruct (section_counts (all_data_df g) "Industry" field t) as [-> Hs]; auto.
    split; [|done]. rewrite !elem_of_cons. auto.
  - destruct (section_counts (all_data_df g) "Asset Allocation" field t) as [-> Hs]; auto.
    split; [|done]. rewrite !elem_of_cons. auto 10.
  - cbn [fst] in Hin. apply list_elem_of_singleton in Hin. by destruct (decide _).
Qed.

Lemma section_nunique df f field n :
  write_nunique field n ∈ (distribution_first df f).1 ∨
  write_nunique field n ∈ (most_frequent df f).1 ∨
  write_nunique field n ∈ (unique_first df f).1 →
  field = f ∧ ∃ s, pd.getitem df f = Ok (pd.Series s) ∧ n = pd.nunique s.
Proof.
  unfold distribution_first, most_frequent, unique_first.
  destruct (decide (f ∈ columns df)).
  - destruct (pd.getitem df f) as [[s|]|]; cbn [fst];
      rewrite ?elem_of_cons, ?elem_of_nil; naive_solver.
  - cbn [fst]. rewrite ?elem_of_cons, ?elem_of_nil. naive_solver.
Qed.

Lemma analysis_nunique g field n :
  write_nunique field n ∈ analysis g →
  field ∈ counted_fields ∧
  ∃ s, pd.getitem (all_data_df g) field = Ok (pd.Series s) ∧ n = pd.nunique s.
Proof.
  unfold analysis, counted_fields. cbv zeta.
  intros [Hin|Hin]%elem_of_app.
  { rewrite !elem_of_cons, elem_of_nil in Hin. by destruct Hin as [|[|[]]]. }
  apply elem_of_until_stop in Hin as (sec & Hsec & Hin).
  rewrite !elem_of_cons, elem_of_nil in Hsec.
  destruct Hsec as [->|[->|[->|[->|[->|[->|[->|[]]]]]]]].
  - destruct (section_nunique (all_data_df g) "Domicile" field n) as [-> Hs]; auto.
    split; [|done]. rewrite !elem_of_cons. auto.
  - destruct (section_nunique (all_data_df g) "Legal Status" field n) as [-> Hs]; auto.
    split; [|done]. rewrite !elem_of_cons. auto.
  - destruct (section_nunique (all_data_df g) "Fund Name" field n) as [-> Hs]; auto.
    split; [|done]. rewrite !elem_of_cons. auto.
  - destruct (section_nunique (all_data_df g) "Promoter/Initiator" field n) as [-> Hs]; auto.
    split; [|done]. rewrite !elem_of_cons. auto 10.
  - destruct (section_nunique (all_data_df g) "Industry" field n) as [-> Hs]; auto.
    split; [|done]. rewrite !elem_of_cons. auto 10.
  - destruct (section_nunique (all_data_df g) "Asset Allocation" field n) as [-> Hs]; auto.
    split; [|done]. rewrite !elem_of_cons. auto 10.
  - cbn [fst] in Hin. apply list_elem_of_singleton in Hin. by destruct (decide _).
Qed.



(** ** Failing and skipped rounds *)

Lemma try_body_page uploaded_file g :
  ∃ es, page (try_body uploaded_file g).1 = page g ++ es.
Proof.
  rewrite try_body_run, extract_run.
  destruct (read_excel uploaded_file) as [sheet|x]; [|exists []; cbn; by rewrite app_nil_r].
  destruct (tolist_str (sheet_columns sheet)) as [original|x]; [|by eexists].
  cbv zeta. destruct (decide (original = [])); [by eexists|].
  destruct (first_matches _ _) as [|h current].
  { eexists. cbn. by rewrite <-!app_assoc. }
  destruct (pd.getitem_list _ _) as [e|x]; [|by eexists].
  destruct (pd.concat _) as [d|x]; [|by eexists].
  eexists. cbn. by rewrite <-!app_assoc.
Qed.

Lemma try_body_frame uploaded_file g :
  (try_body uploaded_file g).2 ≠ Normal () →
  all_data_df (try_body uploaded_file g).1 = all_data_df g ∧
  processed_files_count (try_body uploaded_file g).1 = processed_files_count g.
Proof.
  rewrite try_body_run.
  pose proof (extract_frame uploaded_file g) as (_ & Hdf & Hn).
  destruct (extract uploaded_file g) as [g1 [[e cte]| |x]]; simpl in *; [|done..].
  by destruct (pd.concat _).
Qed.

(** C9: when the body of [try] raises for a file, the table and the count
    of processed files are as before the file, the error and then the
    progress are put on the page, and the loop goes on with the remaining
    files from there; the table changes only in a round that completes. *)
Theorem failure_leaves_table_and_count
    (len i : nat) (uploaded_file : UploadedFile) (rest : list UploadedFile)
    (g : Globals) (e : exn) :
  (try_body uploaded_file g).2 = Raise e →
  all_data_df (process_file len i uploaded_file g) = all_data_df g ∧
  processed_files_count (process_file len i uploaded_file g)
    = processed_files_count g ∧
  (∃ es, page (process_file len i uploaded_file g)
         = page g ++ es ++
           [error_processing (name uploaded_file) e; progress (i + 1) len]) ∧
  for_files len i (uploaded_file :: rest) g
    = for_files len (i + 1) rest (process_file len i uploaded_file g) ∧
  completes uploaded_file g = false ∧
  (∀ uploaded_file' g',
     all_data_df (process_file len i uploaded_file' g') ≠ all_data_df g' →
     completes uploaded_file' g' = true).
Proof.
  intros Hraise.
  destruct (try_body_frame uploaded_file g) as [Hdf Hn]; [by rewrite Hraise|].
  destruct (try_body_page uploaded_file g) as [es Hpage].
  rewrite process_file_run, Hraise. cbn [shown all_data_df processed_files_count page].
  split_and!; [done..| | | |].
  - exists es. by rewrite Hpage, <-!app_assoc.
  - cbn [for_files]. by rewrite process_file_run, Hraise.
  - unfold completes. by rewrite Hraise.
  - intros f' g' Hchanged.
    destruct (round_cases len i f' g') as [(? & ? & ? & _ & _ & ? & _)|(_ & _ & ? & _)];
      [done|contradiction].
Qed.

(** C8: a file in which no column matches a header of the list is skipped:
    it contributes no row, the table and the count of processed files stay as
    they are, and the loop goes on with the remaining files.  When the file
    is read and has at least one column, all labels being texts, the round
    ends by [continue]: the warning and then the progress are put on the page
    and nothing else changes. *)
Theorem file_without_common_headers_is_skipped
    (len i : nat) (uploaded_file : UploadedFile) (rest : list UploadedFile)
    (g : Globals) :
  (∀ sheet original raw header,
     read_excel uploaded_file = Ok sheet →
     tolist_str (sheet_columns sheet) = Ok original →
     raw ∈ original → header ∈ common_headers g →
     py.lower (py.replace "."%char "" (py.strip raw)) ≠ py.lower header) →
  all_data_df (process_file len i uploaded_file g) = all_data_df g ∧
  processed_files_count (process_file len i uploaded_file g) = processed_files_count g ∧
  extracted_rows uploaded_file g = [] ∧
  completes uploaded_file g = false ∧
  for_files len i (uploaded_file :: rest) g
  = for_files len (i + 1) rest (process_file len i uploaded_file g) ∧
  ∀ sheet original,
    read_excel uploaded_file = Ok sheet →
    tolist_str (sheet_columns sheet) = Ok original →
    original ≠ [] →
    process_file len i uploaded_file g
    = shown g [write_processing (name uploaded_file);
               write_original_columns (name uploaded_file) (py.join ", " original);
               warning_no_common_headers (name uploaded_file);
               progress (i + 1) len].
Proof.
  intros Hnone.
  assert (∀ sheet original,
            read_excel uploaded_file = Ok sheet →
            tolist_str (sheet_columns sheet) = Ok original →
            first_matches (common_headers g) (normalize <$> original) = []) as Hcur.
  { intros sheet original Hread Hlabels. apply first_matches_nil.
    intros h col Hh (raw & -> & Hraw)%list_elem_of_fmap. by eapply Hnone. }
  assert (∀ x, (extract uploaded_file g).2 ≠ Normal x) as Hnot.
  { intros x. rewrite extract_run.
    destruct (read_excel uploaded_file) as [sheet|] eqn:Hread; [|done].
    destruct (tolist_str (sheet_columns sheet)) as [original|] eqn:Hlabels; [|done].
    cbv zeta. destruct (decide (original = [])); [done|].
    by rewrite (Hcur sheet original). }
  split_and!.
  - destruct (round_cases len i uploaded_file g)
      as [(g1 & e & cte & Hext & _)|(_ & _ & ? & _)]; [|done].
    destruct (Hnot (e, cte)). by rewrite Hext.
  - destruct (round_cases len i uploaded_file g)
      as [(g1 & e & cte & Hext & _)|(_ & _ & _ & ? & _)]; [|done].
    destruct (Hnot (e, cte)). by rewrite Hext.
  - destruct (round_cases len i uploaded_file g)
      as [(g1 & e & cte & Hext & _)|(_ & ? & _)]; [|done].
    destruct (Hnot (e, cte)). by rewrite Hext.
  - destruct (round_cases len i uploaded_file g)
      as [(g1 & e & cte & Hext & _)|(? & _)]; [|done].
    destruct (Hnot (e, cte)). by rewrite Hext.
  - done.
  - intros sheet original Hread Hlabels Hne.
    rewrite process_file_run, try_body_run, extract_run, Hread, Hlabels. cbv zeta.
    rewrite decide_False by done. rewrite (Hcur sheet original) by done.
    unfold shown, having_found. cbn. rewrite <-!app_assoc.
    by rewrite (left_id_L ∅ (∪)).
Qed.

(** The order of texts is a total order, so that sorting forgets the order
    in which a set is enumerated. *)
Lemma string_compare_trans_le (a b c : string) :
  String.compare a b ≠ Gt → String.compare b c ≠ Gt → String.compare a c ≠ Gt.
Proof.
  revert b c. induction a as [|x a IH]; intros [|y b] [|z c]; simpl; try done.
  unfold Ascii.compare.
  destruct (N.compare_spec (N_of_ascii x) (N_of_ascii y)) as [Hxy|Hxy|Hxy];
    destruct (N.compare_spec (N_of_ascii y) (N_of_ascii z)) as [Hyz|Hyz|Hyz];
    destruct (N.compare_spec (N_of_ascii x) (N_of_ascii z)) as [Hxz|Hxz|Hxz];
    try done; try lia.
  apply IH.
Qed.

#[local] Instance string_le_trans : Transitive string_le.
Proof.
  intros a b c. unfold string_le, String.leb. intros Hab Hbc.
  pose proof (string_compare_trans_le a b c) as Htrans.
  destruct (String.compare a b), (String.compare b c), (String.compare a c);
    try done; by destruct Htrans.
Qed.

#[local] Instance string_le_antisymm : AntiSymm (=) string_le.
Proof. intros a b. apply String.leb_antisym. Qed.

#[local] Instance string_le_total : Total string_le.
Proof. intros a b. apply String.leb_total. Qed.



(** ** Which columns are extracted *)

Lemma indexer_keys cols keys idx :
  pd.indexer cols keys = Ok idx →
  ∀ k, k ∈ keys → ∃ i, i ∈ idx ∧ cols !! i = Some k.
Proof.
  revert idx. induction keys as [|k' keys IH]; intros idx; simpl.
  - intros _ k Hk. by apply elem_of_nil in Hk.
  - destruct (pd.positions k' cols) as [|p ps] eqn:Hp; [done|].
    destruct (pd.indexer cols keys) as [qs|]; [|done].
    intros [= <-] k [->|Hk]%elem_of_cons.
    + exists p. split; [left|]. apply elem_of_positions. rewrite Hp. left.
    + destruct (IH qs eq_refl k Hk) as (j & Hj & Hlook).
      exists j. split; [|done]. right. apply elem_of_app. by right.
Qed.

Lemma getitem_list_keys df keys extracted_df :
  pd.getitem_list df keys = Ok extracted_df →
  ∀ k, k ∈ keys → k ∈ columns extracted_df.
Proof.
  unfold pd.getitem_list.
  destruct (pd.indexer (columns df) keys) as [idx|] eqn:Hidx; [|done].
  intros [= <-] k Hk. simpl.
  destruct (indexer_keys _ _ _ Hidx k Hk) as (i & Hi & Hlook).
  apply list_elem_of_fmap. exists i. by rewrite Hlook.
Qed.

Lemma matching_cols_lower n header cols :
  py.lower n = py.lower header → matching_cols n cols = matching_cols header cols.
Proof. intros Heq. unfold matching_cols. by rewrite Heq. Qed.

(** The first match is the first column equal to the header up to case. *)
Lemma head_matching_cols header cols col :
  head (matching_cols header cols) = Some col ↔
  ∃ k, cols !! k = Some col ∧ py.lower col = py.lower header ∧
       ∀ j c, cols !! j = Some c → j < k → py.lower c ≠ py.lower header.
Proof.
  unfold matching_cols. induction cols as [|c cols IH].
  - split; [done|]. by intros (k & ? & _).
  - rewrite filter_cons. destruct (decide (py.lower c = py.lower header)) as [Hc|Hc].
    + simpl. split.
      * intros [= <-]. exists 0. split_and!; [done..|]. intros j c' _ ?. lia.
      * intros (k & Hk & Heq & Hfirst). destruct k as [|k]; [by simplify_eq/=|].
        destruct (Hfirst 0 c); [done|lia|done].
    + rewrite IH. split.
      * intros (k & Hk & Heq & Hfirst). exists (S k). split_and!; [done..|].
        intros [|j] c' Hj Hlt; simplify_eq/=; [done|]. apply (Hfirst j); [done|lia].
      * intros (k & Hk & Heq & Hfirst). destruct k as [|k]; [by simplify_eq/=|].
        exists k. split_and!; [done..|].
        intros j c' Hj Hlt. apply (Hfirst (S j)); [done|lia].
Qed.

(** Every name found by the first loop is sought by the second. *)
Lemma elem_of_sought current h : h ∈ current → h ∈ sought current.
Proof.
  intros Hh. unfold sought. apply elem_of_app.
  destruct (decide (h ∈ ["Domicile"; "Legal Status"])); [by left|].
  right. by apply list_elem_of_filter.
Qed.

(** The extracted columns of a file that is read and has text labels: no
    frame when no header matches, else the tag and, for every header that
    matches, the first column matching it. *)
Lemma extract_recognises uploaded_file g sheet original :
  common_headers g = COMMON_HEADERS →
  read_excel uploaded_file = Ok sheet →
  tolist_str (sheet_columns sheet) = Ok original →
  ((∀ x, (extract uploaded_file g).2 ≠ Normal x) ∧
   ∀ header, header ∈ COMMON_HEADERS →
             matching_cols header (normalize <$> original) = []) ∨
  (∃ g1 extracted_df cols_to_extract,
     extract uploaded_file g = (g1, Normal (extracted_df, cols_to_extract)) ∧
     (∀ c, c ∈ columns extracted_df → c = "Source File" ∨ c ∈ normalize <$> original) ∧
     ∀ header col, header ∈ COMMON_HEADERS →
       (col ∈ columns extracted_df ∧ py.lower col = py.lower header ↔
        head (matching_cols header (normalize <$> original)) = Some col)).
Proof.
  intros Hheaders Hread Hlabels.
  rewrite extract_run, Hread, Hlabels. cbv zeta. rewrite Hheaders.
  set (cols := normalize <$> original).
  destruct (decide (original = [])) as [Hnil|Hne].
  { left. split; [done|]. intros header Hh. unfold cols. by rewrite Hnil. }
  destruct (first_matches COMMON_HEADERS cols) as [|h0 current0] eqn:Hcur.
  { left. split; [done|]. intros header Hh. apply matching_cols_nil.
    intros col Hcol Heq. rewrite first_matches_nil in Hcur. by apply (Hcur header col). }
  right. rewrite <-Hcur. clear h0 current0 Hcur.
  set (current := first_matches COMMON_HEADERS cols).
  set (cte := first_matches (sought current) cols).
  destruct (getitem_list_total (mkDataFrame cols (sheet_rows sheet)) cte) as [e He].
  { intros c Hc. by apply first_matches_lower in Hc as [? _]. }
  rewrite He. do 3 eexists. split; [done|].
  pose proof (getitem_list_spec _ _ _ He) as (Hsub & _ & _).
  pose proof (getitem_list_keys _ _ _ He) as Hkeys.
  assert (∀ c, c ∈ cte → ∃ h, h ∈ COMMON_HEADERS ∧ py.lower c = py.lower h
                              ∧ head (matching_cols h cols) = Some c) as Hcte.
  { intros c (n & Hn & Hhead)%elem_of_first_matches.
    assert (py.lower c = py.lower n) as Hcn.
    { apply head_matching_cols in Hhead as (_ & _ & ? & _). done. }
    apply sought_lower in Hn as (h & Hh & Hnh).
    exists h. split_and!.
    - apply elem_of_app in Hh as [Hh|Hh]; [|done]. by apply sought_first_in_headers.
    - congruence.
    - by rewrite <-(matching_cols_lower n h cols Hnh). }
  assert ("Source File" ∉ columns e) as Hfresh.
  { intros [Hin _]%Hsub. apply Hcte in Hin as (h & Hh & Heq & _).
    by eapply header_not_source_file. }
  rewrite setitem_fresh by done. cbn [columns]. split.
  - intros c [Hc|Hc%list_elem_of_singleton]%elem_of_app; [right|by left].
    by apply Hsub in Hc as [_ ?].
  - intros header col Hheader. split.
    + intros [[Hc|Hc%list_elem_of_singleton]%elem_of_app Heq].
      * apply Hsub in Hc as [Hc _]. apply Hcte in Hc as (h & Hh & Heq' & Hhead).
        rewrite <-(matching_cols_lower h header cols); [done|congruence].
      * subst col. by destruct (header_not_source_file _ _ Hheader Heq).
    + intros Hhead. split.
      * apply elem_of_app. left. apply Hkeys.
        assert (col ∈ current) as Hcur.
        { apply elem_of_first_matches. eauto. }
        apply elem_of_first_matches. exists col. split; [by apply elem_of_sought|].
        rewrite <-Hhead. f_equal. apply matching_cols_lower.
        by apply head_matching_cols in Hhead as (_ & _ & ? & _).
      * by apply head_matching_cols in Hhead as (_ & _ & ? & _).
Qed.



(** ** The statements at the sample uploads *)



Lemma only_common_headers_at_samples :
  (script [funds_a; lowercase] = script [funds_a; lowercase] ∨
   script [funds_a; lowercase] = for_files 0 0 [funds_a; lowercase] initial) ∧
  (common_headers (script [funds_a; lowercase]) = COMMON_HEADERS ∧
   length (common_headers (script [funds_a; lowercase])) = 33 ∧
   ∀ c, c ∈ columns (all_data_df (script [funds_a; lowercase])) →
        c = "Source File" ∨ ∃ h, h ∈ COMMON_HEADERS ∧ py.lower c = py.lower h).
Proof.
  split; [left; reflexivity|].
  apply (only_common_headers_consolidated [funds_a; lowercase] 0 0
           (script [funds_a; lowercase])).
  left; reflexivity.
Defined.




Lemma no_common_header_in_unrelated sheet original raw header :
  read_excel unrelated = Ok sheet →
  tolist_str (sheet_columns sheet) = Ok original →
  raw ∈ original → header ∈ common_headers initial →
  py.lower (py.replace "."%char "" (py.strip raw)) ≠ py.lower header.
Proof.
  intros [= <-] [= <-] Hraw Hheader. revert header Hheader. apply Forall_forall.
  revert raw Hraw. apply Forall_forall.
  apply (bool_decide_unpack _). vm_compute. exact I.
Defined.

Lemma unrelated_file_is_skipped :
  all_data_df (process_file 2 0 unrelated initial) = all_data_df initial ∧
  processed_files_count (process_file 2 0 unrelated initial)
  = processed_files_count initial ∧
  extracted_rows unrelated initial = [] ∧
  completes unrelated initial = false ∧
  for_files 2 0 [unrelated; funds_a] initial
  = for_files 2 (0 + 1) [funds_a] (process_file 2 0 unrelated initial) ∧
  ∀ sheet original,
    read_excel unrelated = Ok sheet →
    tolist_str (sheet_columns sheet) = Ok original →
    original ≠ [] →
    process_file 2 0 unrelated initial
    = shown initial [write_processing (name unrelated);
                     write_original_columns (name unrelated) (py.join ", " original);
                     warning_no_common_headers (name unrelated);
                     progress (0 + 1) 2].
Proof.
  exact (file_without_common_headers_is_skipped 2 0 unrelated [funds_a] initial
           no_common_header_in_unrelated).
Defined.

(** The page after the round of the sample without a header of the list. *)
Example unrelated_page :
  page (process_file 2 0 unrelated initial)
  = [write_processing "unrelated.xlsx";
     write_original_columns "unrelated.xlsx" "Colour, Size";
     warning_no_common_headers "unrelated.xlsx"; progress 1 2].
Proof. by vm_compute. Qed.

Lemma numbered_fails_after_funds :
  let g := process_file 2 0 funds_a initial in
  (try_body numbered g).2 = Raise TypeError ∧
  (all_data_df (process_file 2 1 numbered g) = all_data_df g ∧
   processed_files_count (process_file 2 1 numbered g) = processed_files_count g ∧
   (∃ es, page (process_file 2 1 numbered g)
          = page g ++ es ++
            [error_processing (name numbered) TypeError; progress (1 + 1) 2]) ∧
   for_files 2 1 [numbered; funds_b] g
   = for_files 2 (1 + 1) [funds_b] (process_file 2 1 numbered g) ∧
   completes numbered g = false ∧
   (∀ uploaded_file' g',
      all_data_df (process_file 2 1 uploaded_file' g') ≠ all_data_df g' →
      completes uploaded_file' g' = true)).
Proof.
  intros g.
  assert ((try_body numbered g).2 = Raise TypeError) as Hraise
    by (vm_compute; reflexivity).
  split; [exact Hraise|].
  exact (failure_leaves_table_and_count 2 1 numbered [funds_b] g TypeError Hraise).
Defined.

(** A frame with a column twice cannot be re-aligned to other labels: the
    round of the sample with the header 'domicile' fails at the concatenation,
    after its headers were added to the found headers. *)
Example lowercase_fails_at_concat :
  let g := process_file 2 0 funds_a initial in
  (try_body lowercase g).2 = Raise InvalidIndexError ∧
  all_data_df (process_file 2 1 lowercase g) = all_data_df g ∧
  elements (found_headers_across_files (process_file 2 1 lowercase g))
  ≡ₚ ["Domicile"; "Fund Name"; "domicile"; "Auditor"].
Proof.
  split_and!; [by vm_compute..|].
  apply (bool_decide_unpack _). by vm_compute.
Qed.


(** The column 'Auditor.' of the sample is extracted as 'Auditor'. *)
Example dotted_is_extracted_as_auditor :
  all_data_df (script [dotted])
  = mkDataFrame ["Auditor"; "Source File"]
      [[Some (Text "KPMG"); Some (Text "dotted.xlsx")]].
Proof. by vm_compute. Qed.

(** Periods go after the stripping: white space that a period at an end
    shields from the stripping stays in the name. *)
Example shielded_space_stays :
  normalize " Auditor" = "Auditor" ∧ normalize ". Auditor" = " Auditor" ∧
  matching_cols "Auditor" [normalize ". Auditor"] = [].
Proof. by vm_compute. Qed.

(** The rows of the two sample sheets in the consolidated table. *)
Example consolidated_samples :
  all_data_df (script [funds_a; broken; unrelated; numbered; funds_b])
  = mkDataFrame ["Domicile"; "Fund Name"; "Source File"]
      [[Some (Text "IE"); Some (Text "Alpha"); Some (Text "a.xlsx")];
       [Some (Text "LU"); Some (Text "Beta"); Some (Text "b.xlsx")];
       [Some (Text "IE"); Some (Text "Beta"); Some (Text "b.xlsx")]] ∧
  processed_files_count (script [funds_a; broken; unrelated; numbered; funds_b]) = 2.
Proof. by vm_compute. Qed.

(** * Further properties of the script *)

(** ** What a round puts on the page *)

(** A round puts its elements on the page and the progress last; among the
    elements before the progress there is no progress and one verdict, which
    bears the name of the file and is the success exactly when the round
    completes. *)
Lemma round_elements len i uploaded_file g :
  ∃ es v,
    page (process_file len i uploaded_file g) = page g ++ es ++ [progress (i + 1) len] ∧
    filter is_progress es = [] ∧
    filter is_verdict es = [v] ∧
    (v = success_processed (name uploaded_file) ∨
     v = warning_no_common_headers (name uploaded_file) ∨
     ∃ e, v = error_processing (name uploaded_file) e) ∧
    is_success v = completes uploaded_file g ∧
    length (filter is_success es) = if completes uploaded_file g then 1 else 0.
Proof.
  unfold completes. rewrite process_file_run, try_body_run, extract_run.
  destruct (read_excel uploaded_file) as [sheet|x].
  2:{ eexists [_], _. cbn. split_and!; [by rewrite <-app_assoc|done..| |done|done]. eauto. }
  destruct (tolist_str (sheet_columns sheet)) as [original|x].
  2:{ eexists [_; _], _. cbn. split_and!; [by rewrite <-!app_assoc|done..| |done|done]. eauto. }
  cbv zeta. destruct (decide (original = [])).
  { eexists [_; _; _], _. cbn. split_and!; [by rewrite <-!app_assoc|done..| |done|done]. eauto. }
  destruct (first_matches _ _) as [|h current].
  { eexists [_; _; _], _. cbn. split_and!; [by rewrite <-!app_assoc|done..| |done|done]. eauto. }
  destruct (pd.getitem_list _ _) as [e|x].
  2:{ eexists [_; _; _], _. cbn. split_and!; [by rewrite <-!app_assoc|done..| |done|done]. eauto. }
  destruct (pd.concat _) as [d|x].
  - eexists [_; _; _; _], _. cbn. split_and!; [by rewrite <-!app_assoc|done..| |done|done]. eauto.
  - eexists [_; _; _], _. cbn. split_and!; [by rewrite <-!app_assoc|done..| |done|done]. eauto.
Qed.

Lemma Forall_until_stop (P : element → Prop) sections :
  Forall (λ sec : section, Forall P sec.1) sections → Forall P (until_stop sections).
Proof.
  induction 1 as [|[es goes_on] sections Hes _ IH]; simpl; [constructor|].
  apply Forall_app. split; [done|]. by destruct goes_on.
Qed.

Ltac not_loop :=
  repeat first [apply Forall_nil_2 | apply Forall_cons_2; [by intros []|]].

(** The analysis puts no element of the loop on the page. *)
Lemma analysis_not_loop g : Forall (λ e, ¬ loop_element e) (analysis g).
Proof.
  unfold analysis. cbv zeta. apply Forall_app. split; [not_loop|].
  apply Forall_until_stop.
  repeat apply Forall_cons_2; try apply Forall_nil_2;
    unfold distribution_first, most_frequent, unique_first;
    repeat case_decide; try (destruct (pd.getitem _ _) as [[|]|]);
    cbn [fst]; not_loop; by intros [].
Qed.

Lemma filter_not_loop (P : element → bool) es :
  (∀ e, P e → loop_element e) → Forall (λ e, ¬ loop_element e) es → filter P es = [].
Proof.
  intros HP. induction 1 as [|e es He _ IH]; [done|].
  rewrite filter_cons, IH. destruct (decide (P e)) as [HPe|]; [|done].
  by destruct He; apply HP.
Qed.

(** On the page of the script, the elements of a kind the loop alone shows
    are those of the page of the loop. *)
Lemma script_page_filter (P : element → bool) files :
  (∀ e, P e → loop_element e) →
  filter P (page (script files))
  = filter P (page (for_files (length files) 0 files initial)).
Proof.
  intros HP. rewrite script_run. destruct files as [|f files].
  { cbn [shown page initial for_files]. rewrite app_nil_l.
    apply filter_not_loop; [done|]. not_loop. }
  cbv zeta. cbn [shown page]. rewrite filter_app.
  rewrite (filter_not_loop P (if pd.empty _ then _ else _)); [by rewrite app_nil_r|done|].
  destruct (pd.empty _); [not_loop|apply analysis_not_loop].
Qed.

Lemma for_files_progress files len i g :
  filter is_progress (page (for_files len i files g))
  = filter is_progress (page g) ++ ((λ k, progress (k + 1) len) <$> seq i (length files)).
Proof.
  revert i g. induction files as [|f files IH]; intros i g; simpl.
  - by rewrite app_nil_r.
  - rewrite IH. destruct (round_elements len i f g) as (es & v & -> & Hnone & _).
    rewrite !filter_app, Hnone, <-app_assoc, Nat.add_1_r. done.
Qed.

(** X1: the progress bar is set once for every uploaded file, whatever
    happens to the file, to the fractions 1/n, 2/n, ..., n/n in this order,
    [n] being the number of uploaded files. *)
Theorem progress_bar_steps (files : list UploadedFile) :
  filter is_progress (page (script files))
  = (λ k, progress (k + 1) (length files)) <$> seq 0 (length files).
Proof.
  rewrite script_page_filter by (by intros []).
  by rewrite for_files_progress.
Qed.

Lemma processed_length files len i g : length (processed len i files g) ≤ length files.
Proof.
  revert i g. induction files as [|f files IH]; intros i g; simpl; [done|].
  rewrite length_app. specialize (IH (i + 1) (process_file len i f g)).
  destruct (completes f g); simpl; lia.
Qed.

Lemma for_files_verdicts files len i g :
  length (filter is_verdict (page (for_files len i files g)))
  = length (filter is_verdict (page g)) + length files ∧
  length (filter is_success (page (for_files len i files g)))
  = length (filter is_success (page g)) + length (processed len i files g).
Proof.
  revert i g. induction files as [|f files IH]; intros i g; simpl; [lia|].
  destruct (IH (i + 1) (process_file len i f g)) as [-> ->].
  destruct (round_elements len i f g) as (es & v & -> & _ & Hv & _ & _ & Hs).
  rewrite !filter_app, !length_app, Hv, Hs. cbn.
  destruct (completes f g); simpl; lia.
Qed.

(** X2: the page holds one verdict (success, warning of no common header,
    or error) for every uploaded file; the successes are as many as the count
    of processed files says, which is never more than the number of uploaded
    files. *)
Theorem one_verdict_per_file (files : list UploadedFile) :
  length (filter is_verdict (page (script files))) = length files ∧
  length (filter is_success (page (script files)))
  = processed_files_count (script files) ∧
  processed_files_count (script files) ≤ length files.
Proof.
  rewrite !script_page_filter by (by intros []).
  destruct (for_files_verdicts files (length files) 0 initial) as [-> ->].
  destruct (script_globals files) as (_ & _ & -> & _).
  rewrite for_files_count. cbn.
  pose proof (processed_length files (length files) 0 initial). lia.
Qed.

(** ** Why a round fails *)

Lemma tolist_str_err ls e :
  tolist_str ls = Err e → e = TypeError ∧ ∃ z, NotStr z ∈ ls.
Proof.
  induction ls as [|[s|z] ls IH]; simpl; [done| |].
  - destruct (tolist_str ls) as [ss|e']; [done|]. intros [= ->].
    destruct (IH eq_refl) as [-> [z Hz]]. split; [done|]. exists z. by right.
  - intros [= <-]. split; [done|]. exists z. left.
Qed.

Lemma align_err new_cols df e :
  pd.align new_cols df = Err e →
  e = InvalidIndexError ∧ columns df ≠ new_cols ∧ ¬ NoDup (columns df).
Proof.
  unfold pd.align. destruct (decide (columns df = new_cols)); [done|].
  destruct (decide (NoDup (columns df))); [done|]. by intros [= <-].
Qed.

(** The concatenation of line 80 fails only on repeated labels, and only
    when the labels of the two frames differ. *)
Lemma concat_err a e x :
  pd.concat [a; e] = Err x →
  x = InvalidIndexError ∧ columns a ≠ columns e ∧
  (¬ NoDup (columns a) ∨ ¬ NoDup (columns e)).
Proof.
  unfold pd.concat. rewrite !filter_cons, filter_nil.
  assert (∀ objs : list DataFrame,
            (objs = [a; e] ∨ objs = [a] ∨ objs = [e]) →
            match pd.align_all (pd.union_indexes (columns <$> objs)) objs with
            | Ok rs => Ok (mkDataFrame (pd.union_indexes (columns <$> objs)) rs)
            | Err e => Err e
            end = Err x →
            x = InvalidIndexError ∧ columns a ≠ columns e ∧
            (¬ NoDup (columns a) ∨ ¬ NoDup (columns e))) as Hobjs.
  { intros objs [->|[->| ->]]; cbn [fmap list_fmap pd.align_all].
    - set (new_cols := pd.union_indexes [columns a; columns e]).
      assert (columns a = columns e → new_cols = columns a) as Hsame.
      { intros Heq. unfold new_cols, pd.union_indexes. cbn [forallb].
        by rewrite Heq, bool_decide_eq_true_2. }
      destruct (pd.align new_cols a) as [ra|y] eqn:Hra.
      + destruct (pd.align new_cols e) as [re|y] eqn:Hre; [done|].
        intros [= <-]. apply align_err in Hre as (-> & Hne & Hdup).
        split_and!; [done| |by right].
        intros Heq. destruct Hne. by rewrite Hsame, Heq.
      + intros [= <-]. apply align_err in Hra as (-> & Hne & Hdup).
        split_and!; [done| |by left].
        intros Heq. destruct Hne. by rewrite Hsame.
    - unfold pd.union_indexes, pd.align. cbn [forallb].
      by rewrite decide_True.
    - unfold pd.union_indexes, pd.align. cbn [forallb].
      by rewrite decide_True. }
  destruct (decide (0 < length (rows a) + length (columns a)));
    destruct (decide (0 < length (rows e) + length (columns e)));
    apply Hobjs; auto.
Qed.

(** X3: when the body of [try] raises, the cause is one of four: the file
    could not be read; a label of the sheet is no text (TypeError at line
    51); the sheet has no column (AttributeError at line 54); or the
    extraction went through and the concatenation of line 80 met repeated
    labels in one of two frames with different labels (InvalidIndexError).
    Selecting the columns at line 78 never raises. *)
Theorem causes_of_failure (uploaded_file : UploadedFile) (g : Globals) (e : exn) :
  (try_body uploaded_file g).2 = Raise e →
  read_excel uploaded_file = Err e ∨
  (∃ sheet,
     read_excel uploaded_file = Ok sheet ∧
     ((e = TypeError ∧ ∃ z, NotStr z ∈ sheet_columns sheet) ∨
      (e = AttributeError ∧ sheet_columns sheet = []))) ∨
  (e = InvalidIndexError ∧
   ∃ g1 extracted_df cols_to_extract,
     extract uploaded_file g = (g1, Normal (extracted_df, cols_to_extract)) ∧
     columns (all_data_df g) ≠ columns extracted_df ∧
     (¬ NoDup (columns (all_data_df g)) ∨ ¬ NoDup (columns extracted_df))).
Proof.
  rewrite try_body_run.
  pose proof (extract_frame uploaded_file g) as (_ & Hdf & _).
  destruct (extract uploaded_file g) as [g1 [[ex cte]| |x]] eqn:Hext;
    cbn [fst snd] in *.
  - rewrite Hdf. destruct (pd.concat [all_data_df g; ex]) as [d|x] eqn:Hc; [done|].
    intros [= <-]. apply concat_err in Hc as (-> & Hne & Hdup).
    right. right. split; [done|]. by exists g1, ex, cte.
  - done.
  - intros [= <-]. revert Hext. rewrite extract_run.
    destruct (read_excel uploaded_file) as [sheet|y]; [|intros [= _ <-]; by left].
    right. left. exists sheet. split; [done|].
    destruct (tolist_str (sheet_columns sheet)) as [original|y] eqn:Hlabels.
    + cbv zeta in Hext. destruct (decide (original = [])) as [->|Hne].
      * injection Hext as _ <-. right. split; [done|].
        destruct (sheet_columns sheet) as [|[s|z] ls]; [done| |done].
        simpl in Hlabels. by destruct (tolist_str ls).
      * destruct (first_matches _ _) as [|h current] eqn:Hcur; [done|].
        rewrite <-Hcur in Hext.
        destruct (getitem_list_total
                    (mkDataFrame (normalize <$> original) (sheet_rows sheet))
                    (first_matches (sought (first_matches (common_headers g)
                                              (normalize <$> original)))
                       (normalize <$> original))) as [ex Hex].
        { intros c Hc. by apply first_matches_lower in Hc as [? _]. }
        by rewrite Hex in Hext.
    + injection Hext as _ <-. left. by apply tolist_str_err in Hlabels.
Qed.

Lemma causes_of_failure_at_numbered :
  (try_body numbered initial).2 = Raise TypeError ∧
  (read_excel numbered = Err TypeError ∨
   (∃ sheet,
      read_excel numbered = Ok sheet ∧
      ((TypeError = TypeError ∧ ∃ z, NotStr z ∈ sheet_columns sheet) ∨
       (TypeError = AttributeError ∧ sheet_columns sheet = []))) ∨
   (TypeError = InvalidIndexError ∧
    ∃ g1 extracted_df cols_to_extract,
      extract numbered initial = (g1, Normal (extracted_df, cols_to_extract)) ∧
      columns (all_data_df initial) ≠ columns extracted_df ∧
      (¬ NoDup (columns (all_data_df initial)) ∨ ¬ NoDup (columns extracted_df)))).
Proof.
  assert ((try_body numbered initial).2 = Raise TypeError) as Hraise
    by (vm_compute; reflexivity).
  split; [exact Hraise|].
  exact (causes_of_failure numbered initial TypeError Hraise).
Defined.

(** ** The found headers *)

Lemma first_matches_no_cols names : first_matches names [] = [].
Proof. apply first_matches_nil. intros n col _ Hcol. by apply elem_of_nil in Hcol. Qed.

(** A round adds the matched columns of its file to the found headers,
    whether it completes or not. *)
Lemma process_file_found len i uploaded_file g :
  found_headers_across_files (process_file len i uploaded_file g)
  = list_to_set (matched_columns (common_headers g) uploaded_file)
    ∪ found_headers_across_files g.
Proof.
  rewrite process_file_run, try_body_run, extract_run.
  unfold matched_columns, original_columns.
  destruct (read_excel uploaded_file) as [sheet|x];
    [|cbn; by rewrite (left_id_L ∅ (∪))].
  destruct (tolist_str (sheet_columns sheet)) as [original|x];
    [|cbn; by rewrite (left_id_L ∅ (∪))].
  cbv zeta. destruct (decide (original = [])) as [->|Hne].
  { cbn [fmap list_fmap]. rewrite first_matches_no_cols. cbn.
    by rewrite (left_id_L ∅ (∪)). }
  destruct (first_matches _ _) as [|h current]; [done|].
  destruct (pd.getitem_list _ _) as [e|x]; [|done].
  by destruct (pd.concat _).
Qed.

Lemma extract_normal_matched uploaded_file g g1 y :
  extract uploaded_file g = (g1, Normal y) →
  matched_columns (common_headers g) uploaded_file ≠ [].
Proof.
  rewrite extract_run. unfold matched_columns, original_columns.
  destruct (read_excel uploaded_file) as [sheet|x]; [|done].
  destruct (tolist_str (sheet_columns sheet)) as [original|x]; [|done].
  cbv zeta. destruct (decide (original = [])); [done|].
  by destruct (first_matches _ _).
Qed.

Lemma for_files_found files len i g h :
  h ∈ found_headers_across_files (for_files len i files g) ↔
  h ∈ found_headers_across_files g ∨
  ∃ uploaded_file, uploaded_file ∈ files ∧
                   h ∈ matched_columns (common_headers g) uploaded_file.
Proof.
  revert i g. induction files as [|f files IH]; intros i g; simpl.
  - split; [by left|]. intros [?|(f & Hf & _)]; [done|]. by apply elem_of_nil in Hf.
  - rewrite IH, process_file_found, elem_of_union, elem_of_list_to_set.
    assert (common_headers (process_file len i f g) = common_headers g) as ->.
    { by destruct (round_cases len i f g)
        as [(? & ? & ? & _ & _ & _ & _ & _ & ->)|(_ & _ & _ & _ & ->)]. }
    split.
    + intros [[Hh|Hh]|(f' & Hf' & Hh)]; [right; exists f; split; [left|done]|by left|].
      right. exists f'. split; [by right|done].
    + intros [Hh|(f' & [->|Hf']%elem_of_cons & Hh)]; [by left; right|by left; left|].
      right. by exists f'.
Qed.

(** X4: the found headers at the end of the script are exactly the columns
    that are the first match of a header of the list in some uploaded file
    that was read with text labels only, under the normalised name, whether
    or not that file was then consolidated. *)
Theorem found_headers_are_first_matches (files : list UploadedFile) (h : string) :
  h ∈ found_headers_across_files (script files) ↔
  ∃ uploaded_file original header,
    uploaded_file ∈ files ∧
    original_columns uploaded_file = Some original ∧
    header ∈ COMMON_HEADERS ∧
    head (matching_cols header
            ((λ raw, py.replace "."%char "" (py.strip raw)) <$> original)) = Some h.
Proof.
  destruct (script_globals files) as (_ & _ & _ & ->).
  rewrite for_files_found. cbn [initial found_headers_across_files common_headers].
  rewrite elem_of_empty. unfold matched_columns. split.
  - intros [[]|(f & Hf & Hh)].
    destruct (original_columns f) as [original|] eqn:Horig;
      [|by apply elem_of_nil in Hh].
    apply elem_of_first_matches in Hh as (header & Hheader & Hhead).
    by exists f, original, header.
  - intros (f & original & header & Hf & Horig & Hheader & Hhead).
    right. exists f. split; [done|]. rewrite Horig.
    apply elem_of_first_matches. by exists header.
Qed.

Lemma extracted_columns_matched uploaded_file g g1 extracted_df cols_to_extract c :
  common_headers g = COMMON_HEADERS →
  extract uploaded_file g = (g1, Normal (extracted_df, cols_to_extract)) →
  c ∈ columns extracted_df →
  c = "Source File" ∨ c ∈ matched_columns COMMON_HEADERS uploaded_file.
Proof.
  intros Hheaders Hext Hc.
  destruct (extract_normal _ _ _ _ _ Hext Hheaders)
    as (sheet & labels & Hread & Hcols & Hmatch & _).
  rewrite Hcols in Hc. apply elem_of_app in Hc as [Hl|Hc];
    [|left; by apply list_elem_of_singleton in Hc].
  right. destruct (Hmatch c Hl) as (header & Hheader & Heq).
  unfold matched_columns, original_columns. rewrite Hread.
  destruct (tolist_str (sheet_columns sheet)) as [original|x] eqn:Hlabels.
  - destruct (extract_recognises uploaded_file g sheet original Hheaders Hread Hlabels)
      as [[Hnot _]|(g1' & e' & cte' & Hext' & _ & Hiff)].
    { destruct (Hnot (extracted_df, cols_to_extract)). by rewrite Hext. }
    rewrite Hext in Hext'. injection Hext' as <- <- <-.
    apply elem_of_first_matches. exists header. split; [done|].
    apply Hiff; [done|]. split; [|done]. rewrite Hcols. apply elem_of_app. by left.
  - rewrite extract_run, Hread, Hlabels in Hext. done.
Qed.

Lemma for_files_columns_found files len i g history :
  consolidated g history →
  (∀ c, c ∈ columns (all_data_df g) →
        c = "Source File" ∨ c ∈ found_headers_across_files g) →
  ∀ c, c ∈ columns (all_data_df (for_files len i files g)) →
       c = "Source File" ∨ c ∈ found_headers_across_files (for_files len i files g).
Proof.
  revert i g history. induction files as [|f files IH]; intros i g history Hinv Hg;
    [done|].
  simpl. eapply IH; [by apply process_file_consolidated|].
  intros c Hc. rewrite process_file_found, elem_of_union, elem_of_list_to_set.
  destruct Hinv as [Hheaders _ _ _]. rewrite Hheaders.
  destruct (round_cases len i f g)
    as [(g1 & e & cte & Hext & Hconcat & _)|(_ & _ & Hdf & _)].
  - destruct (extract_normal _ _ _ _ _ Hext Hheaders) as (_ & labels & _ & Hcols & _).
    destruct (concat_pair _ _ _ Hconcat) as (_ & _ & _ & _ & _ & Hin & _).
    { rewrite Hcols. by destruct labels. }
    apply Hin in Hc as [Hc|Hc].
    + destruct (Hg c Hc); auto.
    + destruct (extracted_columns_matched _ _ _ _ _ c Hheaders Hext Hc); auto.
  - rewrite Hdf in Hc. destruct (Hg c Hc); auto.
Qed.

(** X5: every column of the consolidated table other than the tag
    'Source File' is among the found headers that the summary at the end
    lists. *)
Theorem consolidated_columns_are_found (files : list UploadedFile) (c : string) :
  c ∈ columns (all_data_df (script files)) →
  c ≠ "Source File" →
  c ∈ found_headers_across_files (script files).
Proof.
  destruct (script_globals files) as (_ & -> & _ & ->). intros Hc Hne.
  destruct (for_files_columns_found files (length files) 0 initial []
              consolidated_initial) with (c := c) as [?|?]; [|done..].
  intros c' Hc'. by apply elem_of_nil in Hc'.
Qed.

Lemma consolidated_columns_are_found_at_samples :
  ("Fund Name" ∈ columns (all_data_df (script [funds_a; funds_b])) ∧
   "Fund Name" ≠ "Source File") ∧
  "Fund Name" ∈ found_headers_across_files (script [funds_a; funds_b]).
Proof.
  assert ("Fund Name" ∈ columns (all_data_df (script [funds_a; funds_b]))) as Hin
    by (apply (bool_decide_unpack _); vm_compute; exact I).
  assert ("Fund Name" ≠ "Source File") as Hne by discriminate.
  split; [by split|].
  exact (consolidated_columns_are_found [funds_a; funds_b] "Fund Name" Hin Hne).
Defined.

Lemma for_files_found_nonempty files len i g :
  all_data_df g = pd.DataFrame_ ∨ found_headers_across_files g ≠ ∅ →
  all_data_df (for_files len i files g) = pd.DataFrame_ ∨
  found_headers_across_files (for_files len i files g) ≠ ∅.
Proof.
  revert i g. induction files as [|f files IH]; intros i g Hg; [done|].
  simpl. apply IH. rewrite process_file_found.
  destruct (round_cases len i f g)
    as [(g1 & e & cte & Hext & _)|(_ & _ & -> & _)].
  - right. apply extract_normal_matched in Hext.
    destruct (matched_columns (common_headers g) f) as [|h hs]; [done|].
    intros Hempty. apply (not_elem_of_empty (C := gset string) h).
    rewrite <-Hempty. apply elem_of_union. left. apply elem_of_list_to_set. left.
  - destruct Hg as [?|Hne]; [by left|right].
    intros Hempty. destruct Hne. apply set_eq. intros h. split.
    + intros Hh. rewrite <-Hempty. apply elem_of_union. by right.
    + by intros ?%not_elem_of_empty.
Qed.

Lemma section_elements df f e :
  e ∈ (distribution_first df f).1 ∨ e ∈ (most_frequent df f).1 ∨
  e ∈ (unique_first df f).1 →
  match e with
  | dataframe_counts _ _ | write_top _ _ | write_nunique _ _ | not_a_series _
  | info_no_column _ => True
  | _ => False
  end.
Proof.
  unfold distribution_first, most_frequent, unique_first.
  destruct (decide (f ∈ columns df)).
  - destruct (pd.getitem df f) as [[s|]|]; cbn [fst];
      rewrite ?elem_of_cons, ?elem_of_nil; naive_solver.
  - cbn [fst]. rewrite ?elem_of_cons, ?elem_of_nil. naive_solver.
Qed.

(** The element that closes the analysis (lines 185-188). *)
Lemma analysis_summary g e :
  e ∈ analysis g →
  match e with
  | write_found_headers hs =>
      hs = sorted (found_headers_across_files g) ∧ found_headers_across_files g ≠ ∅
  | warning_no_headers_extracted => found_headers_across_files g = ∅
  | _ => True
  end.
Proof.
  unfold analysis. cbv zeta. intros [Hin|Hin]%elem_of_app.
  { rewrite !elem_of_cons, elem_of_nil in Hin. by destruct Hin as [->|[->|[]]]. }
  apply elem_of_until_stop in Hin as (sec & Hsec & Hin).
  rewrite !elem_of_cons, elem_of_nil in Hsec.
  destruct Hsec as [->|[->|[->|[->|[->|[->|[->|[]]]]]]]].
  - pose proof (section_elements _ _ e (or_introl Hin)). by destruct e.
  - pose proof (section_elements _ _ e (or_introl Hin)). by destruct e.
  - pose proof (section_elements _ _ e (or_intror (or_introl Hin))). by destruct e.
  - pose proof (section_elements _ _ e (or_intror (or_introl Hin))). by destruct e.
  - pose proof (section_elements _ _ e (or_intror (or_intror Hin))). by destruct e.
  - pose proof (section_elements _ _ e (or_intror (or_intror Hin))). by destruct e.
  - cbn [fst] in Hin. apply list_elem_of_singleton in Hin as ->.
    by destruct (decide _).
Qed.

(** X6: the summary of found headers at the end of the analysis lists the
    found headers in the order of texts, each once, and is never empty: when
    the analysis is shown some header was found, so the warning of line 188
    is never put on the page. *)
Theorem found_headers_summary (files : list UploadedFile) :
  (∀ hs, write_found_headers hs ∈ page (script files) →
         hs ≠ [] ∧ StronglySorted string_le hs ∧ NoDup hs ∧
         ∀ h, h ∈ hs ↔ h ∈ found_headers_across_files (script files)) ∧
  warning_no_headers_extracted ∉ page (script files).
Proof.
  split.
  - intros hs Hin.
    apply script_page in Hin as [Hin|[Hin|[_ Hin]]]; [done..| |by intros []].
    apply analysis_summary in Hin as [-> Hne]. unfold sorted.
    assert (∀ h, h ∈ merge_sort string_le
                       (elements (found_headers_across_files (script files)))
                 ↔ h ∈ found_headers_across_files (script files)) as Hiff.
    { intros h. by rewrite merge_sort_Permutation, elem_of_elements. }
    split_and!; [|apply (StronglySorted_merge_sort _)| |done].
    + intros Hnil. destruct Hne. apply set_eq. intros h.
      rewrite <-Hiff, Hnil. split; [by intros ?%elem_of_nil|by intros ?%not_elem_of_empty].
    + rewrite merge_sort_Permutation. apply NoDup_elements.
  - intros Hin.
    apply script_page in Hin as [Hin|[Hin|[Hempty Hin]]]; [done..| |by intros []].
    apply analysis_summary in Hin.
    destruct (script_globals files) as (_ & Hdf & _ & Hfound).
    rewrite Hfound in Hin. rewrite Hdf in Hempty.
    destruct (for_files_found_nonempty files (length files) 0 initial) as [Hnone|?];
      [by left| |done].
    by rewrite Hnone in Hempty.
Qed.

(** ** The order and the repetition of the extracted columns *)

Lemma positions_labels key cols :
  (λ i, default "" (cols !! i)) <$> pd.positions key cols
  = replicate (length (pd.positions key cols)) key.
Proof.
  assert (∀ idx : list nat,
            Forall (λ i, cols !! i = Some key) idx →
            (λ i, default "" (cols !! i)) <$> idx = replicate (length idx) key) as Hall.
  { induction 1 as [|i idx Hi _ IH]; [done|]. cbn. by rewrite Hi, IH. }
  apply Hall, Forall_forall. intros i. by rewrite elem_of_positions.
Qed.

(** The labels of [df[keys]]: every key as often as it labels a column. *)
Lemma getitem_list_columns df keys extracted_df :
  pd.getitem_list df keys = Ok extracted_df →
  columns extracted_df
  = keys ≫= (λ k, replicate (length (pd.positions k (columns df))) k).
Proof.
  unfold pd.getitem_list.
  destruct (pd.indexer (columns df) keys) as [idx|] eqn:Hidx; [|done].
  intros [= <-]. cbn [columns]. revert idx Hidx.
  induction keys as [|k keys IH]; intros idx; simpl.
  - by intros [= <-].
  - destruct (pd.positions k (columns df)) as [|p ps] eqn:Hp; [done|].
    destruct (pd.indexer (columns df) keys) as [qs|]; [|done].
    intros [= <-]. rewrite app_comm_cons, <-Hp, fmap_app, positions_labels.
    by rewrite (IH qs).
Qed.

(** The extracted frame of a file: the columns sought, in the order they are
    sought, each as often as its name labels a column of the file, and the
    tag last. *)
Lemma extract_normal_shape uploaded_file g g1 extracted_df cols_to_extract :
  common_headers g = COMMON_HEADERS →
  extract uploaded_file g = (g1, Normal (extracted_df, cols_to_extract)) →
  ∃ original,
    original_columns uploaded_file = Some original ∧
    cols_to_extract
    = first_matches (sought (first_matches COMMON_HEADERS (normalize <$> original)))
        (normalize <$> original) ∧
    columns extracted_df
    = (cols_to_extract ≫=
         (λ k, replicate (length (pd.positions k (normalize <$> original))) k))
      ++ ["Source File"].
Proof.
  intros Hheaders. rewrite extract_run. unfold original_columns.
  destruct (read_excel uploaded_file) as [sheet|]; [|by intros ?].
  destruct (tolist_str (sheet_columns sheet)) as [original|]; [|by intros ?].
  cbv zeta. destruct (decide (original = [])) as [|Hne]; [by intros ?|].
  remember (first_matches (common_headers g) (normalize <$> original)) as cur eqn:Hcur.
  destruct cur as [|h0 current0]; [by intros ?|].
  remember (first_matches (sought (h0 :: current0)) (normalize <$> original))
    as cte eqn:Hcte.
  destruct (pd.getitem_list _ cte) as [e|] eqn:Hget; [|by intros ?].
  intros Hext. injection Hext as _ <- <-.
  exists original. split; [done|]. split; [by rewrite Hcte, Hcur, Hheaders|].
  assert ("Source File" ∉ columns e) as Hfresh.
  { intros Hin. pose proof (getitem_list_spec _ _ _ Hget) as (Hsub & _).
    destruct (Hsub "Source File" Hin) as [Hkey _].
    rewrite Hcte, Hcur in Hkey.
    apply first_matches_lower in Hkey as (_ & n & Hn & Heq).
    apply sought_lower in Hn as (h & Hh & Heq').
    rewrite Hheaders in Hh.
    apply (header_not_source_file "Source File" h); [|congruence|reflexivity].
    apply elem_of_app in Hh as [Hh|Hh]; [by apply sought_first_in_headers|exact Hh]. }
  rewrite setitem_fresh by exact Hfresh. cbn [columns]. f_equal.
  exact (getitem_list_columns _ _ _ Hget).
Qed.

Lemma head_matching_elem header cols m :
  head (matching_cols header cols) = Some m →
  m ∈ cols ∧ py.lower m = py.lower header ∧ pd.positions m cols ≠ [].
Proof.
  intros Hhead. apply head_matching_cols in Hhead as (k & Hk & Heq & _).
  split_and!; [by eapply list_elem_of_lookup_2|done|].
  intros Hnil. apply positions_nil in Hnil. destruct Hnil.
  by eapply list_elem_of_lookup_2.
Qed.

Lemma first_matches_app names1 names2 cols :
  first_matches (names1 ++ names2) cols
  = first_matches names1 cols ++ first_matches names2 cols.
Proof. unfold first_matches. apply omap_app. Qed.

(** X7: in the frame extracted from a file the tag 'Source File' is the last
    column; the first column is the first column of the file matching
    'Domicile' when there is one, and else the first column matching
    'Legal Status' when there is one. *)
Theorem domicile_first_tag_last
    (uploaded_file : UploadedFile) (g g1 : Globals) (extracted_df : DataFrame)
    (cols_to_extract original : list string) :
  common_headers g = COMMON_HEADERS →
  extract uploaded_file g = (g1, Normal (extracted_df, cols_to_extract)) →
  original_columns uploaded_file = Some original →
  let cols := (λ raw, py.replace "."%char "" (py.strip raw)) <$> original in
  last (columns extracted_df) = Some "Source File" ∧
  (∀ m, head (matching_cols "Domicile" cols) = Some m →
        head (columns extracted_df) = Some m) ∧
  (matching_cols "Domicile" cols = [] →
   ∀ m, head (matching_cols "Legal Status" cols) = Some m →
        head (columns extracted_df) = Some m).
Proof.
  intros Hheaders Hext Horig cols.
  destruct (extract_normal_shape _ _ _ _ _ Hheaders Hext)
    as (original' & Horig' & Hcte & Hcols).
  rewrite Horig in Horig'. injection Horig' as <-.
  change (normalize <$> original) with cols in Hcte, Hcols.
  remember (first_matches COMMON_HEADERS cols) as cur eqn:Hcur in Hcte. clear Hcur.
  unfold sought in Hcte. rewrite first_matches_app in Hcte.
  rewrite Hcols, Hcte, bind_app. clear Hcols Hcte. split_and!.
  - apply last_snoc.
  - intros m Hm. pose proof (head_matching_elem _ _ _ Hm) as (_ & _ & Hpos).
    unfold first_matches. cbn [omap list_omap]. rewrite Hm.
    rewrite bind_cons. by destruct (pd.positions m cols).
  - intros Hnone m Hm. pose proof (head_matching_elem _ _ _ Hm) as (_ & _ & Hpos).
    unfold first_matches. cbn [omap list_omap]. rewrite Hnone, Hm. cbn [head].
    rewrite bind_cons. by destruct (pd.positions m cols).
Qed.

Lemma domicile_first_at_lowercase :
  (common_headers initial = COMMON_HEADERS ∧
   original_columns lowercase = Some ["domicile"; "Auditor"]) ∧
  ∃ g1 extracted_df cols_to_extract,
    extract lowercase initial = (g1, Normal (extracted_df, cols_to_extract)) ∧
    let cols := (λ raw, py.replace "."%char "" (py.strip raw)) <$> ["domicile"; "Auditor"] in
    last (columns extracted_df) = Some "Source File" ∧
    (∀ m, head (matching_cols "Domicile" cols) = Some m →
          head (columns extracted_df) = Some m) ∧
    (matching_cols "Domicile" cols = [] →
     ∀ m, head (matching_cols "Legal Status" cols) = Some m →
          head (columns extracted_df) = Some m).
Proof.
  split; [split; reflexivity|].
  destruct (extract lowercase initial) as [g1 [[e cte]| |x]] eqn:Hext;
    [|exfalso; revert Hext; vm_compute; discriminate..].
  exists g1, e, cte. split; [reflexivity|].
  exact (domicile_first_tag_last lowercase initial g1 e cte ["domicile"; "Auditor"]
           eq_refl Hext eq_refl).
Defined.

(** A column sought under the literal name and again under its own name
    stands twice in the columns to extract. *)
Lemma sought_twice name m cols :
  name ∈ ["Domicile"; "Legal Status"] →
  head (matching_cols name cols) = Some m →
  m ≠ name →
  m ∈ first_matches ["Domicile"; "Legal Status"] cols ∧
  m ∈ first_matches
        (filter (λ h, h ∉ ["Domicile"; "Legal Status"]) (first_matches COMMON_HEADERS cols))
        cols.
Proof.
  intros Hname Hm Hne.
  pose proof (head_matching_elem _ _ _ Hm) as (Hin & Heq & _).
  split.
  - apply elem_of_first_matches. by exists name.
  - apply elem_of_first_matches. exists m. split.
    + apply list_elem_of_filter. split.
      * intros Hlit. destruct Hne.
        assert (py.lower "Domicile" ≠ py.lower "Legal Status") as Hdiff by discriminate.
        rewrite !elem_of_cons, elem_of_nil in Hname, Hlit.
        destruct Hname as [->|[->|[]]], Hlit as [->|[->|[]]]; try done;
          by destruct Hdiff.
      * apply elem_of_first_matches. exists name. split; [|done].
        by apply sought_first_in_headers.
    + by rewrite (matching_cols_lower m name cols Heq).
Qed.

(** X8: when the first column of a file matching 'Domicile' (or
    'Legal Status') is not spelled exactly so, the column is sought twice,
    under the literal name and under its own, and stands twice in the
    extracted frame. *)
Theorem differently_cased_column_is_extracted_twice
    (uploaded_file : UploadedFile) (g g1 : Globals) (extracted_df : DataFrame)
    (cols_to_extract original : list string) (name m : string) :
  common_headers g = COMMON_HEADERS →
  extract uploaded_file g = (g1, Normal (extracted_df, cols_to_extract)) →
  original_columns uploaded_file = Some original →
  name ∈ ["Domicile"; "Legal Status"] →
  head (matching_cols name
          ((λ raw, py.replace "."%char "" (py.strip raw)) <$> original)) = Some m →
  m ≠ name →
  2 ≤ length (filter (λ c, c = m) cols_to_extract) ∧
  2 ≤ length (pd.positions m (columns extracted_df)) ∧
  ¬ NoDup (columns extracted_df).
Proof.
  intros Hheaders Hext Horig Hname Hm Hne.
  destruct (extract_normal_shape _ _ _ _ _ Hheaders Hext)
    as (original' & Horig' & Hcte & Hcols).
  rewrite Horig in Horig'. injection Horig' as <-.
  change ((λ raw, py.replace "."%char "" (py.strip raw)) <$> original)
    with (normalize <$> original) in Hm.
  set (cols := normalize <$> original) in *.
  destruct (sought_twice name m cols Hname Hm Hne) as [Hfirst Hsecond].
  pose proof (head_matching_elem _ _ _ Hm) as (_ & _ & Hpos).
  unfold sought in Hcte. rewrite first_matches_app in Hcte.
  set (f := λ k, replicate (length (pd.positions k cols)) k) in *.
  assert (∀ keys, m ∈ keys → m ∈ keys ≫= f) as Hbind.
  { intros keys Hk. apply list_elem_of_bind. exists m. split; [|done].
    apply elem_of_replicate. split; [done|]. by destruct (pd.positions m cols). }
  assert (∀ l : list string, m ∈ l → 1 ≤ length (filter (λ c, c = m) l)) as Hcount.
  { intros l. induction l as [|c l IH]; [by intros ?%elem_of_nil|].
    rewrite filter_cons. intros [->|Hl]%elem_of_cons.
    - rewrite decide_True by done. simpl. lia.
    - specialize (IH Hl). destruct (decide (c = m)); simpl; lia. }
  assert (¬ NoDup (columns extracted_df)) as Hdup.
  { rewrite Hcols, Hcte, bind_app. intros Hnd.
    apply NoDup_app in Hnd as [Hnd _]. apply NoDup_app in Hnd as (_ & Hdisj & _).
    by apply (Hdisj m); apply Hbind. }
  split_and!; [| |done].
  - rewrite Hcte, filter_app, length_app.
    pose proof (Hcount _ Hfirst). pose proof (Hcount _ Hsecond). lia.
  - destruct (pd.positions m (columns extracted_df)) as [|p [|q idx]] eqn:Hp;
      [| |simpl; lia].
    + apply positions_nil in Hp. destruct Hp. rewrite Hcols, Hcte, bind_app.
      apply elem_of_app. left. apply elem_of_app. left. by apply Hbind.
    + (* one position only: the two occurrences would coincide *)
      exfalso.
      assert (m ∈ first_matches ["Domicile"; "Legal Status"] cols ≫= f) as H1
        by (by apply Hbind).
      assert (m ∈ first_matches
                    (filter (λ h, h ∉ ["Domicile"; "Legal Status"])
                       (first_matches COMMON_HEADERS cols)) cols ≫= f) as H2
        by (by apply Hbind).
      apply list_elem_of_lookup in H1 as [i1 Hi1].
      apply list_elem_of_lookup in H2 as [i2 Hi2].
      set (A := first_matches ["Domicile"; "Legal Status"] cols ≫= f) in *.
      set (B := first_matches _ cols ≫= f) in Hi2.
      assert (columns extracted_df !! i1 = Some m) as Hc1.
      { rewrite Hcols, Hcte, bind_app. fold A B.
        rewrite <-app_assoc. by apply lookup_app_l_Some. }
      assert (columns extracted_df !! (length A + i2) = Some m) as Hc2.
      { rewrite Hcols, Hcte, bind_app. fold A B.
        rewrite <-app_assoc, lookup_app_r by lia.
        replace (length A + i2 - length A) with i2 by lia.
        by apply lookup_app_l_Some. }
      apply elem_of_positions in Hc1, Hc2. rewrite Hp in Hc1, Hc2.
      apply list_elem_of_singleton in Hc1, Hc2.
      apply lookup_lt_Some in Hi1. lia.
Qed.

Lemma extracted_twice_at_lowercase :
  (common_headers initial = COMMON_HEADERS ∧
   original_columns lowercase = Some ["domicile"; "Auditor"] ∧
   "Domicile" ∈ ["Domicile"; "Legal Status"] ∧
   head (matching_cols "Domicile"
           ((λ raw, py.replace "."%char "" (py.strip raw)) <$> ["domicile"; "Auditor"]))
   = Some "domicile" ∧
   "domicile" ≠ "Domicile") ∧
  ∃ g1 extracted_df cols_to_extract,
    extract lowercase initial = (g1, Normal (extracted_df, cols_to_extract)) ∧
    2 ≤ length (filter (λ c, c = "domicile") cols_to_extract) ∧
    2 ≤ length (pd.positions "domicile" (columns extracted_df)) ∧
    ¬ NoDup (columns extracted_df).
Proof.
  assert ("Domicile" ∈ ["Domicile"; "Legal Status"]) as Hname by left.
  assert ("domicile" ≠ "Domicile") as Hne by discriminate.
  split; [split_and!; [reflexivity|reflexivity|exact Hname|reflexivity|exact Hne]|].
  destruct (extract lowercase initial) as [g1 [[e cte]| |x]] eqn:Hext;
    [|exfalso; revert Hext; vm_compute; discriminate..].
  exists g1, e, cte. split; [reflexivity|].
  exact (differently_cased_column_is_extracted_twice lowercase initial g1 e cte
           ["domicile"; "Auditor"] "Domicile" "domicile"
           eq_refl Hext eq_refl Hname eq_refl Hne).
Defined.

(** A frame with a repeated label is not concatenated to a table that has
    columns and other labels. *)
Lemma concat_repeated a e :
  ¬ NoDup (columns e) → columns a ≠ [] → columns a ≠ columns e →
  pd.concat [a; e] = Err InvalidIndexError.
Proof.
  intros Hdup Ha Hne. unfold pd.concat. rewrite !filter_cons, filter_nil.
  rewrite (decide_True (P := 0 < length (rows a) + length (columns a)))
    by (destruct (columns a); [done|simpl; lia]).
  rewrite (decide_True (P := 0 < length (rows e) + length (columns e))).
  2:{ destruct (columns e); [by destruct Hdup; constructor|simpl; lia]. }
  cbn [fmap list_fmap pd.align_all].
  assert (pd.union_indexes [columns a; columns e]
          = unique (mjoin [columns a; columns e])) as ->.
  { unfold pd.union_indexes. cbn [forallb]. by rewrite bool_decide_eq_false_2. }
  set (new_cols := unique _).
  assert (pd.align new_cols e = Err InvalidIndexError) as He.
  { unfold pd.align. rewrite decide_False, decide_False; [done..|].
    intros Heq. destruct Hdup. rewrite Heq. apply NoDup_unique. }
  destruct (pd.align new_cols a) as [ra|x] eqn:Hra.
  - by rewrite He.
  - by apply align_err in Hra as (-> & _).
Qed.

(** X9: a file whose extracted frame has a label twice is consolidated only
    into the empty table or into a table with exactly its labels: when the
    table has columns and other labels, the round raises at the
    concatenation (InvalidIndexError) and table and count stay as they are. *)
Theorem repeated_label_is_rejected
    (len i : nat) (uploaded_file : UploadedFile) (g g1 : Globals)
    (extracted_df : DataFrame) (cols_to_extract : list string) :
  extract uploaded_file g = (g1, Normal (extracted_df, cols_to_extract)) →
  ¬ NoDup (columns extracted_df) →
  columns (all_data_df g) ≠ [] →
  columns (all_data_df g) ≠ columns extracted_df →
  (try_body uploaded_file g).2 = Raise InvalidIndexError ∧
  all_data_df (process_file len i uploaded_file g) = all_data_df g ∧
  processed_files_count (process_file len i uploaded_file g) = processed_files_count g.
Proof.
  intros Hext Hdup Hcols Hne.
  assert ((try_body uploaded_file g).2 = Raise InvalidIndexError) as Hraise.
  { rewrite try_body_run.
    pose proof (extract_frame uploaded_file g) as (_ & Hdf & _).
    rewrite Hext in Hdf |- *. cbn [fst] in Hdf. rewrite Hdf.
    by rewrite concat_repeated. }
  split; [done|].
  destruct (try_body_frame uploaded_file g) as [Hdf Hn]; [by rewrite Hraise|].
  by rewrite process_file_run, Hraise.
Qed.

Lemma repeated_label_rejected_at_lowercase :
  let g := process_file 2 0 funds_a initial in
  ∃ g1 extracted_df cols_to_extract,
    (extract lowercase g = (g1, Normal (extracted_df, cols_to_extract)) ∧
     ¬ NoDup (columns extracted_df) ∧
     columns (all_data_df g) ≠ [] ∧
     columns (all_data_df g) ≠ columns extracted_df) ∧
    (try_body lowercase g).2 = Raise InvalidIndexError ∧
    all_data_df (process_file 2 1 lowercase g) = all_data_df g ∧
    processed_files_count (process_file 2 1 lowercase g) = processed_files_count g.
Proof.
  intros g.
  destruct (extract lowercase g) as [g1 [[e cte]| |x]] eqn:Hext;
    [|exfalso; revert Hext; vm_compute; discriminate..].
  assert (e = mkDataFrame ["domicile"; "domicile"; "Auditor"; "Source File"]
                [[Some (Text "IE"); Some (Text "IE"); Some (Text "PwC");
                  Some (Text "lower.xlsx")]]) as He.
  { revert Hext. vm_compute. by intros [= _ <- _]. }
  assert (¬ NoDup (columns e)) as Hdup.
  { rewrite He. apply (bool_decide_unpack _). vm_compute. exact I. }
  assert (columns (all_data_df g) ≠ []) as Hcols by (vm_compute; discriminate).
  assert (columns (all_data_df g) ≠ columns e) as Hne
    by (rewrite He; vm_compute; discriminate).
  exists g1, e, cte. split; [by split_and!|].
  exact (repeated_label_is_rejected 2 1 lowercase g g1 e cte Hext Hdup Hcols Hne).
Defined.

(** ** The statistics on the page *)

(** The counts of the values of a list without repetition that holds every
    cell of a column add up to the length of the column. *)
Lemma count_of_sum (s l : list cell) :
  NoDup l → (∀ x, x ∈ s → x ∈ l) →
  sum_list ((λ c, pd.count_of c s) <$> l) = length s.
Proof.
  intros Hnd. induction s as [|a s IH]; intros Hsub.
  - induction l as [|c l IHl]; [done|]. cbn [fmap list_fmap sum_list_with].
    apply NoDup_cons in Hnd as [_ Hnd]. rewrite IHl by (done || by intros ? ?%elem_of_nil).
    done.
  - assert (sum_list ((λ c, pd.count_of c (a :: s)) <$> l)
            = 1 + sum_list ((λ c, pd.count_of c s) <$> l)) as ->.
    { assert (a ∈ l) as Ha by (apply Hsub; left).
      clear IH Hsub. induction l as [|c l IHl]; [by apply elem_of_nil in Ha|].
      apply NoDup_cons in Hnd as [Hc Hnd]. cbn [fmap list_fmap sum_list_with].
      unfold pd.count_of at 1. rewrite filter_cons.
      apply elem_of_cons in Ha as [->|Ha].
      - rewrite decide_True by done. cbn [length].
        assert (sum_list ((λ c0, pd.count_of c0 (c :: s)) <$> l)
                = sum_list ((λ c0, pd.count_of c0 s) <$> l)) as ->.
        { clear IHl Hnd. induction l as [|d l IHl]; [done|].
          apply not_elem_of_cons in Hc as [Hne Hc]. cbn [fmap list_fmap sum_list_with].
          rewrite IHl by done. unfold pd.count_of at 1.
          by rewrite filter_cons, decide_False. }
        unfold pd.count_of. simpl. lia.
      - rewrite decide_False by (by intros ->).
        rewrite IHl by done. unfold pd.count_of. simpl. lia. }
    rewrite IH; [done|]. intros x Hx. apply Hsub. by right.
Qed.

(** X10: the numbers of a value-count table on the page add up to the
    number of rows of the consolidated table: every row is counted once, the
    rows without a value under the entry of the missing value. *)
Theorem value_counts_add_up
    (files : list UploadedFile) (field : string) (t : list (cell * nat)) :
  dataframe_counts field t ∈ page (script files) →
  sum_list t.*2 = length (rows (all_data_df (script files))).
Proof.
  intros Hin. apply script_page in Hin as [Hin|[Hin|[_ Hin]]]; [done..| |by intros []].
  apply analysis_counts in Hin as (_ & s & Hget & ->).
  apply getitem_series in Hget as (p & _ & Hs).
  unfold pd.value_counts. rewrite !sort_values_desc_perm, <-list_fmap_compose.
  rewrite (list_fmap_ext _ (λ c, pd.count_of c s) (unique s)) by done.
  rewrite count_of_sum; [by rewrite Hs, length_fmap|apply NoDup_unique|].
  intros x. by rewrite elem_of_unique.
Qed.

Lemma value_counts_add_up_at_samples :
  dataframe_counts "Domicile" [(Some (Text "IE"), 2); (Some (Text "LU"), 1)]
    ∈ page (script [funds_a; funds_b]) ∧
  sum_list [(Some (Text "IE"), 2); (Some (Text "LU"), 1)].*2
  = length (rows (all_data_df (script [funds_a; funds_b]))).
Proof.
  assert (dataframe_counts "Domicile" [(Some (Text "IE"), 2); (Some (Text "LU"), 1)]
            ∈ page (script [funds_a; funds_b])) as Hin
    by (apply (bool_decide_unpack _); vm_compute; exact I).
  split; [exact Hin|].
  exact (value_counts_add_up [funds_a; funds_b] "Domicile" _ Hin).
Defined.

Lemma filter_is_Some_pairs (g : cell → nat) (l : list cell) :
  length (filter (λ x : cell * nat, is_Some x.1) ((λ c, (c, g c)) <$> l))
  = length (filter (λ c : cell, is_Some c) l).
Proof.
  induction l as [|c l IH]; [done|]. cbn [fmap list_fmap]. rewrite !filter_cons.
  cbn [fst]. destruct (decide (is_Some c)); simpl; by rewrite IH.
Qed.

Lemma unique_values_length (s : list cell) :
  length (filter (λ c : cell, is_Some c) (unique s)) = pd.nunique s.
Proof.
  unfold pd.nunique. rewrite <-(length_fmap Some (unique (omap id s))).
  apply Permutation_length, NoDup_Permutation.
  - apply NoDup_filter, NoDup_unique.
  - apply NoDup_fmap_2; [apply _|apply NoDup_unique].
  - intros c. rewrite list_elem_of_filter, elem_of_unique, list_elem_of_fmap.
    setoid_rewrite elem_of_unique. setoid_rewrite list_elem_of_omap. split.
    + intros [[v ->] Hc]. exists v. split; [done|]. by exists (Some v).
    + intros (v & -> & c' & Hc' & Hid). simpl in Hid. subst c'. split; [by eexists|done].
Qed.

(** X11: for a field with both on the page, the number of unique values is
    the number of entries of the value-count table that are not the entry of
    the missing value. *)
Theorem nunique_agrees_with_table
    (files : list UploadedFile) (field : string) (t : list (cell * nat)) (n : nat) :
  dataframe_counts field t ∈ page (script files) →
  write_nunique field n ∈ page (script files) →
  n = length (filter (λ x : cell * nat, is_Some x.1) t) ∧
  n ≤ length t ≤ n + 1.
Proof.
  intros Ht Hn.
  apply script_page in Ht as [Ht|[Ht|[_ Ht]]]; [done..| |by intros []].
  apply script_page in Hn as [Hn|[Hn|[_ Hn]]]; [done..| |by intros []].
  apply analysis_counts in Ht as (_ & s & Hget & ->).
  apply analysis_nunique in Hn as (_ & s' & Hget' & ->).
  rewrite Hget in Hget'. injection Hget' as <-.
  unfold pd.value_counts.
  assert (length (filter (λ x : cell * nat, is_Some x.1)
                    (pd.sort_values_desc (pd.sort_values_desc
                       ((λ c, (c, pd.count_of c s)) <$> unique s))))
          = pd.nunique s) as Hlen.
  { rewrite !sort_values_desc_perm, filter_is_Some_pairs. apply unique_values_length. }
  split; [done|].
  rewrite !sort_values_desc_perm, length_fmap, <-unique_values_length.
  split; [apply length_filter|].
  (* at most one entry is the missing value *)
  pose proof (NoDup_unique s) as Hnd. revert Hnd. generalize (unique s). intros l Hnd.
  induction l as [|c l IH]; [simpl; lia|].
  apply NoDup_cons in Hnd as [Hc Hnd]. rewrite filter_cons.
  destruct (decide (is_Some c)) as [|Hnone]; [simpl; specialize (IH Hnd); lia|].
  assert (c = None) as -> by (destruct c; [by destruct Hnone; eexists|done]).
  assert (filter (λ c : cell, is_Some c) l = l) as ->.
  { clear IH Hnd. induction l as [|d l IHl]; [done|].
    apply not_elem_of_cons in Hc as [Hne Hc]. rewrite filter_cons, IHl by done.
    rewrite decide_True; [done|]. destruct d; [by eexists|done]. }
  simpl. lia.
Qed.

Lemma nunique_agrees_at_samples :
  (dataframe_counts "Domicile" [(Some (Text "IE"), 2); (Some (Text "LU"), 1)]
     ∈ page (script [funds_a; funds_b]) ∧
   write_nunique "Domicile" 2 ∈ page (script [funds_a; funds_b])) ∧
  (2 = length (filter (λ x : cell * nat, is_Some x.1)
                 [(Some (Text "IE"), 2); (Some (Text "LU"), 1)]) ∧
   2 ≤ length [(Some (Text "IE"), 2); (Some (Text "LU"), 1)] ≤ 2 + 1).
Proof.
  assert (dataframe_counts "Domicile" [(Some (Text "IE"), 2); (Some (Text "LU"), 1)]
            ∈ page (script [funds_a; funds_b])) as Ht
    by (apply (bool_decide_unpack _); vm_compute; exact I).
  assert (write_nunique "Domicile" 2 ∈ page (script [funds_a; funds_b])) as Hn
    by (apply (bool_decide_unpack _); vm_compute; exact I).
  split; [by split|].
  exact (nunique_agrees_with_table [funds_a; funds_b] "Domicile" _ 2 Ht Hn).
Defined.

(** The first [k] entries of a table in decreasing order of the counts: an
    entry left out stands after [k] others, none of them with a smaller
    count. *)
Lemma head_of_sorted (k : nat) (t : list (cell * nat)) (x : cell * nat) :
  StronglySorted pd.by_count_desc t → x ∈ t → x ∉ pd.head k t →
  length (pd.head k t) = k ∧ ∀ y, y ∈ pd.head k t → x.2 ≤ y.2.
Proof.
  unfold pd.head. intros Hsorted Hx Hnot.
  rewrite <-(take_drop k t) in Hx, Hsorted.
  apply elem_of_app in Hx as [Hx|Hx]; [done|]. split.
  - destruct (decide (k ≤ length t)) as [Hle|Hgt]; [by apply length_take_le|].
    rewrite drop_ge in Hx by lia. by apply elem_of_nil in Hx.
  - intros y Hy. by apply (StronglySorted_app_1_elem_of _ _ _ y x Hsorted).
Qed.

Lemma distribution_first_top df f field t' :
  write_top field t' ∈ (distribution_first df f).1 →
  field = f ∧
  ∃ s, pd.getitem df f = Ok (pd.Series s) ∧
       t' = pd.head 5 (pd.sort_values_desc (pd.value_counts false s)).
Proof.
  unfold distribution_first. destruct (decide (f ∈ columns df)).
  - destruct (pd.getitem df f) as [[s|]|]; cbn [fst];
      rewrite ?elem_of_cons, ?elem_of_nil; naive_solver.
  - cbn [fst]. rewrite ?elem_of_cons, ?elem_of_nil. naive_solver.
Qed.

Lemma most_frequent_top df f field t' :
  write_top field t' ∈ (most_frequent df f).1 →
  field = f ∧
  ∃ s, pd.getitem df f = Ok (pd.Series s) ∧
       t' = pd.head 5 (pd.value_counts true s).
Proof.
  unfold most_frequent. destruct (decide (f ∈ columns df)).
  - destruct (pd.getitem df f) as [[s|]|]; cbn [fst];
      rewrite ?elem_of_cons, ?elem_of_nil; naive_solver.
  - cbn [fst]. rewrite ?elem_of_cons, ?elem_of_nil. naive_solver.
Qed.

Lemma unique_first_top df f field t' :
  write_top field t' ∉ (unique_first df f).1.
Proof.
  unfold unique_first. destruct (decide (f ∈ columns df)).
  - destruct (pd.getitem df f) as [[s|]|]; cbn [fst];
      rewrite ?elem_of_cons, ?elem_of_nil; naive_solver.
  - by intros ?%elem_of_nil.
Qed.

(** The tables of which the first five entries are shown: with the missing
    value for the domicile and the legal status (lines 102 and 125), without
    it for the fund name and the promoter (lines 150 and 155). *)
Lemma analysis_top g field t' :
  write_top field t' ∈ analysis g →
  ∃ s t, pd.getitem (all_data_df g) field = Ok (pd.Series s) ∧ t' = pd.head 5 t ∧
         StronglySorted pd.by_count_desc t ∧
         (field ∈ ["Domicile"; "Legal Status"] ∧
            t ≡ₚ (λ c, (c, pd.count_of c s)) <$> unique s ∨
          field ∈ ["Fund Name"; "Promoter/Initiator"] ∧
            t ≡ₚ (λ c, (c, pd.count_of c s)) <$> unique (filter (λ c, is_Some c) s)).
Proof.
  unfold analysis. cbv zeta.
  intros [Hin|Hin]%elem_of_app.
  { rewrite !elem_of_cons, elem_of_nil in Hin. by destruct Hin as [|[|[]]]. }
  apply elem_of_until_stop in Hin as (sec & Hsec & Hin).
  rewrite !elem_of_cons, elem_of_nil in Hsec.
  assert (∀ s, StronglySorted pd.by_count_desc
                 (pd.sort_values_desc (pd.value_counts false s)) ∧
               pd.sort_values_desc (pd.value_counts false s)
                 ≡ₚ (λ c, (c, pd.count_of c s)) <$> unique s) as Hfalse.
  { intros s. split; [apply sort_values_desc_sorted|].
    unfold pd.value_counts. by rewrite !sort_values_desc_perm. }
  assert (∀ s, StronglySorted pd.by_count_desc (pd.value_counts true s) ∧
               pd.value_counts true s
                 ≡ₚ (λ c, (c, pd.count_of c s)) <$> unique (filter (λ c, is_Some c) s))
    as Htrue.
  { intros s. split; [apply sort_values_desc_sorted|].
    unfold pd.value_counts. by rewrite sort_values_desc_perm. }
  destruct Hsec as [->|[->|[->|[->|[->|[->|[->|[]]]]]]]].
  - apply distribution_first_top in Hin as (-> & s & Hs & ->).
    exists s, (pd.sort_values_desc (pd.value_counts false s)).
    split_and!; [done|done|apply Hfalse|].
    left. split; [left|apply Hfalse].
  - apply distribution_first_top in Hin as (-> & s & Hs & ->).
    exists s, (pd.sort_values_desc (pd.value_counts false s)).
    split_and!; [done|done|apply Hfalse|].
    left. split; [right; left|apply Hfalse].
  - apply most_frequent_top in Hin as (-> & s & Hs & ->).
    exists s, (pd.value_counts true s).
    split_and!; [done|done|apply Htrue|].
    right. split; [left|apply Htrue].
  - apply most_frequent_top in Hin as (-> & s & Hs & ->).
    exists s, (pd.value_counts true s).
    split_and!; [done|done|apply Htrue|].
    right. split; [right; left|apply Htrue].
  - by apply unique_first_top in Hin.
  - by apply unique_first_top in Hin.
  - cbn [fst] in Hin. apply list_elem_of_singleton in Hin. by destruct (decide _).
Qed.

(** X12: the table headed by the top five of a field holds at most five
    values of the column, each once and with the number of rows holding it;
    for the fund name and the promoter the missing value is not among them.
    Whenever a value of the column that could stand there is left out, five
    values are shown and none of them is rarer than the one left out. *)
Theorem top_five_are_the_most_frequent
    (files : list UploadedFile) (field : string) (t' : list (cell * nat)) :
  write_top field t' ∈ page (script files) →
  ∃ s, pd.getitem (all_data_df (script files)) field = Ok (pd.Series s) ∧
       length t' ≤ 5 ∧ NoDup t'.*1 ∧
       (∀ c n, (c, n) ∈ t' → c ∈ s ∧ n = pd.count_of c s) ∧
       (field ∈ ["Fund Name"; "Promoter/Initiator"] → None ∉ t'.*1) ∧
       (∀ c, c ∈ s → c ∉ t'.*1 →
          c ≠ None ∨ field ∈ ["Domicile"; "Legal Status"] →
          length t' = 5 ∧ ∀ x, x ∈ t' → pd.count_of c s ≤ x.2).
Proof.
  intros Hin. apply script_page in Hin as [Hin|[Hin|[_ Hin]]]; [done..| |by intros []].
  apply analysis_top in Hin as (s & t & Hs & -> & Hsorted & Ht).
  exists s. split; [done|].
  set (kept := if bool_decide (field ∈ ["Fund Name"; "Promoter/Initiator"])
               then filter (λ c : cell, is_Some c) s else s).
  assert (t ≡ₚ (λ c, (c, pd.count_of c s)) <$> unique kept) as Hperm.
  { unfold kept. destruct Ht as [[Hf Ht]|[Hf Ht]].
    - rewrite bool_decide_eq_false_2; [done|].
      rewrite !elem_of_cons, elem_of_nil in Hf. rewrite !elem_of_cons, elem_of_nil.
      by destruct Hf as [->|[->|[]]]; intros [|[|[]]].
    - by rewrite bool_decide_eq_true_2. }
  assert (∀ c n, (c, n) ∈ t ↔ c ∈ kept ∧ n = pd.count_of c s) as Hspec.
  { intros c n. rewrite Hperm, list_elem_of_fmap. setoid_rewrite elem_of_unique. split.
    - by intros (c' & [= -> ->] & Hc).
    - intros [Hc ->]. eauto. }
  assert (∀ c, c ∈ kept → c ∈ s) as Hkept.
  { intros c. unfold kept. destruct (bool_decide _); [|done].
    rewrite list_elem_of_filter. by intros [_ ?]. }
  assert (NoDup t.*1) as Hnd.
  { rewrite Hperm, <-list_fmap_compose.
    rewrite (list_fmap_ext _ id (unique kept)) by done.
    rewrite list_fmap_id. apply NoDup_unique. }
  assert (∀ x, x ∈ pd.head 5 t → x ∈ t) as Hsub.
  { intros x. unfold pd.head. apply subseteq_take. }
  split_and!.
  - unfold pd.head. rewrite length_take. lia.
  - unfold pd.head. rewrite fmap_take. rewrite <-(take_drop 5 t.*1) in Hnd.
    by apply NoDup_app in Hnd as [Hnd _].
  - intros c n [Hc ->]%Hsub%Hspec. auto.
  - intros Hf [[c n] [Hc Hx%Hsub%Hspec]]%list_elem_of_fmap. cbn in Hc. subst c.
    destruct Hx as [Hx _]. unfold kept in Hx. rewrite bool_decide_eq_true_2 in Hx by done.
    apply list_elem_of_filter in Hx as [[v Hv] _]. done.
  - intros c Hc Hnot Heligible.
    assert (c ∈ kept) as Hck.
    { unfold kept. destruct (bool_decide _) eqn:Hb; [|done].
      apply bool_decide_eq_true_1 in Hb. apply list_elem_of_filter. split; [|done].
      destruct Heligible as [Hne|Hf].
      - destruct c; [by eexists|done].
      - exfalso. rewrite !elem_of_cons, elem_of_nil in Hf, Hb.
        by destruct Hf as [->|[->|[]]]; destruct Hb as [|[|[]]]. }
    destruct (head_of_sorted 5 t (c, pd.count_of c s)) as [Hlen Hle]; [done| | |done].
    + by apply Hspec.
    + intros Hx. apply Hnot. apply list_elem_of_fmap. by exists (c, pd.count_of c s).
Qed.

Lemma top_five_at_samples :
  write_top "Domicile" [(Some (Text "IE"), 2); (Some (Text "LU"), 1)]
    ∈ page (script [funds_a; funds_b]) ∧
  ∃ s, pd.getitem (all_data_df (script [funds_a; funds_b])) "Domicile"
         = Ok (pd.Series s) ∧
       length [(Some (Text "IE"), 2); (Some (Text "LU"), 1)] ≤ 5 ∧
       NoDup [(Some (Text "IE"), 2); (Some (Text "LU"), 1)].*1 ∧
       (∀ c n, (c, n) ∈ [(Some (Text "IE"), 2); (Some (Text "LU"), 1)] →
               c ∈ s ∧ n = pd.count_of c s) ∧
       ("Domicile" ∈ ["Fund Name"; "Promoter/Initiator"] →
        None ∉ [(Some (Text "IE"), 2); (Some (Text "LU"), 1)].*1) ∧
       (∀ c, c ∈ s → c ∉ [(Some (Text "IE"), 2); (Some (Text "LU"), 1)].*1 →
          c ≠ None ∨ "Domicile" ∈ ["Domicile"; "Legal Status"] →
          length [(Some (Text "IE"), 2); (Some (Text "LU"), 1)] = 5 ∧
          ∀ x, x ∈ [(Some (Text "IE"), 2); (Some (Text "LU"), 1)] →
               pd.count_of c s ≤ x.2).
Proof.
  assert (write_top "Domicile" [(Some (Text "IE"), 2); (Some (Text "LU"), 1)]
            ∈ page (script [funds_a; funds_b])) as Hin
    by (apply (bool_decide_unpack _); vm_compute; exact I).
  split; [exact Hin|].
  exact (top_five_are_the_most_frequent [funds_a; funds_b] "Domicile" _ Hin).
Defined.

(** ** The three ways a run ends *)

(** The consolidated table is empty for pandas exactly when it has no
    row: once a file is processed it has the column of the file names. *)
Lemma empty_iff_no_rows g history :
  consolidated g history →
  pd.empty (all_data_df g) = true ↔ rows (all_data_df g) = [].
Proof.
  intros [_ _ Htag _]. unfold pd.empty. rewrite bool_decide_eq_true. split.
  - intros [Hrows|Hcols]; [by apply nil_length_inv|].
    destruct Htag as [->|[p Hp]]; [done|].
    apply nil_length_inv in Hcols. by rewrite Hcols in Hp.
  - intros ->. by left.
Qed.

Lemma analysis_closing g :
  Forall (λ e, e ≠ warning_no_data ∧ e ≠ info_please_upload ∧
               ∀ n, e = success_consolidated n → n = processed_files_count g)
    (analysis g).
Proof.
  unfold analysis. cbv zeta. apply Forall_app. split.
  { repeat apply Forall_cons_2; try apply Forall_nil_2;
      (split_and!; [done|done|]); [by intros n [= <-]|done]. }
  apply Forall_until_stop.
  repeat apply Forall_cons_2; try apply Forall_nil_2;
    unfold distribution_first, most_frequent, unique_first;
    repeat case_decide; try (destruct (pd.getitem _ _) as [[|]|]);
    cbn [fst]; repeat apply Forall_cons_2; try apply Forall_nil_2; done.
Qed.

(** X13: a run ends in one of three ways.  Without uploads it asks for
    files.  With uploads it warns that no data could be extracted exactly when
    the consolidated table has no row, which is also so when files were
    processed but held no row; otherwise it reports the number of processed
    files, and with that number only. *)
Theorem run_ends_in_one_of_three_ways (files : list UploadedFile) :
  (info_please_upload ∈ page (script files) ↔ files = []) ∧
  (warning_no_data ∈ page (script files) ↔
     files ≠ [] ∧ rows (all_data_df (script files)) = []) ∧
  (∀ n, success_consolidated n ∈ page (script files) ↔
     rows (all_data_df (script files)) ≠ [] ∧ n = processed_files_count (script files)).
Proof.
  rewrite script_run. destruct files as [|f files].
  { cbn [shown page all_data_df processed_files_count initial rows pd.DataFrame_ app].
    split_and!.
    - split; [done|]. intros _. by apply list_elem_of_singleton.
    - split; [by intros [=]%list_elem_of_singleton|by intros [? _]].
    - intros n. split; [by intros [=]%list_elem_of_singleton|by intros [? _]]. }
  cbv zeta. generalize (length (f :: files)). intros len.
  pose proof (for_files_consolidated (f :: files) len 0 initial [] consolidated_initial)
    as Hinv.
  apply empty_iff_no_rows in Hinv.
  destruct (for_files_page (f :: files) len 0 initial) as (es & Hpage & Hes).
  rewrite Forall_forall in Hes.
  pose proof (analysis_closing (for_files len 0 (f :: files) initial)) as Han.
  rewrite Forall_forall in Han.
  revert Hinv Hpage Hes Han. generalize (for_files len 0 (f :: files) initial).
  intros g Hinv Hpage Hes Han.
  cbn [shown page all_data_df processed_files_count]. rewrite Hpage.
  cbn [initial page app].
  destruct (pd.empty (all_data_df g)) eqn:Hempty.
  - assert (rows (all_data_df g) = []) as Hrows by (by apply Hinv).
    split_and!.
    + split; [|done]. intros [He| [=]%list_elem_of_singleton]%elem_of_app.
      by apply Hes in He.
    + split; [done|]. intros _. apply elem_of_app. right. by apply list_elem_of_singleton.
    + intros n. split; [|by intros [? _]].
      intros [He| [=]%list_elem_of_singleton]%elem_of_app. by apply Hes in He.
  - assert (rows (all_data_df g) ≠ []) as Hrows.
    { intros Hr. apply Hinv in Hr. congruence. }
    split_and!.
    + split; [|done]. intros [He|He]%elem_of_app; [by apply Hes in He|].
      by apply Han in He as (_ & ? & _).
    + split; [|by intros [_ ?]]. intros [He|He]%elem_of_app; [by apply Hes in He|].
      by apply Han in He as (? & _).
    + intros n. split.
      * intros [He|He]%elem_of_app; [by apply Hes in He|].
        apply Han in He as (_ & _ & Hn). split; [done|]. by apply Hn.
      * intros [_ ->]. apply elem_of_app. right. unfold analysis. cbv zeta.
        apply elem_of_app. left. left.
Qed.

(** ** Labels a file does not provide *)

(** The extracted table has one cell under each of its labels in every row,
    whatever the rows of the sheet hold, and it has the column of the file
    name. *)
Lemma extract_rectangular uploaded_file g g1 extracted_df cols_to_extract :
  extract uploaded_file g = (g1, Normal (extracted_df, cols_to_extract)) →
  columns extracted_df ≠ [] ∧
  Forall (λ r, length r = length (columns extracted_df)) (rows extracted_df).
Proof.
  rewrite extract_run.
  destruct (read_excel uploaded_file) as [sheet|]; [|by intros ?].
  destruct (tolist_str (sheet_columns sheet)) as [original|]; [|by intros ?].
  cbv zeta. destruct (decide (original = [])) as [|Hne]; [by intros ?|].
  destruct (first_matches (common_headers g) _) as [|h0 current0]; [by intros ?|].
  unfold pd.getitem_list. cbn [columns rows].
  destruct (pd.indexer _ _) as [idx|]; [|by intros ?].
  intros Hext. injection Hext as _ <- _.
  unfold pd.setitem. cbn [columns rows]. case_decide as Hin.
  - cbn [columns rows]. split; [intros Hnil; rewrite Hnil in Hin; by apply elem_of_nil in Hin|].
    rewrite <-list_fmap_compose. apply Forall_fmap, Forall_forall. intros r _. cbn.
    rewrite length_zip_with. unfold pd.take_cells. rewrite !length_fmap. lia.
  - cbn [columns rows]. split; [by intros [_ ?]%app_eq_nil|].
    rewrite <-list_fmap_compose. apply Forall_fmap, Forall_forall. intros r _. cbn.
    unfold pd.take_cells. by rewrite !length_app, !length_fmap.
Qed.

(** A row brought under the labels of the concatenation: one cell under every
    label, the cell the row had under it, or the missing value where the
    frame of the row has no such label. *)
Lemma align_cells new_cols df rs :
  pd.align new_cols df = Ok rs →
  Forall2 (λ r' r, length r = length (columns df) →
             length r' = length new_cols ∧
             ∀ i c, new_cols !! i = Some c →
                    ((c ∉ columns df) ∧ r' !! i = Some NaN) ∨
                    (∃ j, columns df !! j = Some c ∧ r' !! i = r !! j))
    rs (rows df).
Proof.
  unfold pd.align. case_decide as Hsame.
  - intros [= <-]. apply Forall_Forall2_diag, Forall_forall. intros r _ Hlen.
    rewrite <-Hsame. split; [done|]. intros i c Hc. right. eauto.
  - case_decide; [|done]. intros [= <-]. apply Forall2_fmap_l.
    apply Forall_Forall2_diag, Forall_forall. intros r _ Hlen.
    unfold pd.reindex. rewrite length_fmap. split; [done|].
    intros i c Hc. rewrite list_lookup_fmap, Hc. cbn.
    destruct (list_find (λ c0, c0 = c) (columns df)) as [[j y]|] eqn:Hfind.
    + apply list_find_Some in Hfind as (Hj & -> & _). right. exists j. split; [done|].
      destruct (lookup_lt_is_Some_2 r j) as [v ->]; [|done].
      rewrite Hlen. by apply lookup_lt_is_Some_1; eexists.
    + left. split; [|done]. apply list_find_None in Hfind.
      rewrite Forall_forall in Hfind. intros Hin. by apply (Hfind c).
Qed.

Lemma process_file_filled len i uploaded_file g history :
  Forall2 (filled (columns (all_data_df g))) (rows (all_data_df g)) history →
  Forall2 (filled (columns (all_data_df (process_file len i uploaded_file g))))
    (rows (all_data_df (process_file len i uploaded_file g)))
    (history ++ extracted_rows uploaded_file g).
Proof.
  intros Hrows.
  destruct (round_cases len i uploaded_file g)
    as [(g1 & e & cte & Hext & Hconcat & _ & -> & _ & _)
       |(_ & -> & Hdf & _ & _)].
  - set (d := all_data_df (process_file len i uploaded_file g)) in *.
    destruct (extract_rectangular _ _ _ _ _ Hext) as [Hne Hrect].
    destruct (concat_pair _ _ _ Hconcat Hne) as (ra & re & Hd & Hra & Hre & _ & _).
    rewrite Hd. apply Forall2_app.
    + apply align_cells in Hra.
      eapply Forall2_trans; [|exact Hra|exact Hrows].
      intros r' r x Hcells [Hlen Hfill].
      destruct (Hcells Hlen) as [Hlen' Hcase]. split; [done|].
      intros k c Hc Hnot. destruct (Hcase k c Hc) as [[_ ?]|(j & Hj & ->)]; [done|].
      by apply (Hfill j c).
    + apply align_cells in Hre. apply Forall2_fmap_r.
      eapply Forall2_impl; [apply (Forall2_with_right _ _ _ _ Hre Hrect)|].
      intros r' r [Hcells Hlen]. destruct (Hcells Hlen) as [Hlen' Hcase].
      split; [done|]. cbn [under].
      intros k c Hc Hnot. destruct (Hcase k c Hc) as [[_ ?]|(j & Hj & _)]; [done|].
      by apply list_elem_of_lookup_2 in Hj.
  - by rewrite app_nil_r, Hdf.
Qed.

Lemma for_files_filled files len i g history :
  Forall2 (filled (columns (all_data_df g))) (rows (all_data_df g)) history →
  Forall2 (filled (columns (all_data_df (for_files len i files g))))
    (rows (all_data_df (for_files len i files g)))
    (history ++ contributions len i files g).
Proof.
  revert i g history. induction files as [|f files IH]; intros i g history Hinv; simpl.
  - by rewrite app_nil_r.
  - rewrite app_assoc. by apply IH, process_file_filled.
Qed.

(** X14: every row of the consolidated table has one cell under every label
    of the table, and the missing value under each label that the extracted
    row it comes from does not stand under: the concatenation fills what a
    file does not provide, also in the rows added before the label came. *)
Theorem labels_not_provided_are_missing (files : list UploadedFile) :
  Forall2 (filled (columns (all_data_df (script files))))
    (rows (all_data_df (script files)))
    (contributions (length files) 0 files initial).
Proof.
  destruct (script_globals files) as (_ & -> & _).
  apply (for_files_filled files (length files) 0 initial []). constructor.
Qed.

(** ** The closing part of the page *)


Lemma not_empty_rows df : pd.empty df = false → rows df ≠ [].
Proof.
  unfold pd.empty. intros Hne%bool_decide_eq_false Hrows. apply Hne. left. by rewrite Hrows.
Qed.



Lemma contributions_processed files len i g :
  contributions len i files g ≠ [] → processed len i files g ≠ [].
Proof.
  revert i g. induction files as [|f files IH]; intros i g; simpl; [done|].
  intros Hne Hnil. apply app_eq_nil in Hnil as [Hf Hrest].
  destruct (round_cases len i f g)
    as [(_ & _ & _ & _ & _ & Hc & _)|(_ & Hx & _)].
  - by rewrite Hc in Hf.
  - rewrite Hx in Hne. by apply (IH (i + 1) (process_file len i f g)).
Qed.

(** X16: the closing success message never reports zero files: the table
    has rows only when a round completed, so the number shown is at least one,
    and it is at most the number of uploaded files. *)
Theorem success_reports_at_least_one_file (files : list UploadedFile) (n : nat) :
  success_consolidated n ∈ page (script files) → 1 ≤ n ≤ length files.
Proof.
  intros Hin. apply script_page in Hin as [Hin|[Hin|[Hne Hin]]]; [done..| |by intros []].
  apply not_empty_rows in Hne.
  pose proof (analysis_closing (script files)) as Han. rewrite Forall_forall in Han.
  destruct (Han _ Hin) as (_ & _ & Hn). rewrite (Hn n eq_refl).
  destruct (script_globals files) as (_ & Hdf & -> & _). rewrite Hdf in Hne.
  rewrite for_files_count. cbn [initial processed_files_count].
  pose proof (processed_length files (length files) 0 initial) as Hle.
  pose proof (for_files_consolidated files (length files) 0 initial [] consolidated_initial)
    as [_ _ _ Hrows].
  apply Forall2_length in Hrows. rewrite app_nil_l in Hrows.
  assert (processed (length files) 0 files initial ≠ []) as Hproc.
  { apply contributions_processed. intros Hnil. rewrite Hnil in Hrows.
    by apply nil_length_inv in Hrows. }
  destruct (processed _ _ _ _); [done|]. simpl in *. lia.
Qed.

Lemma success_reports_at_samples :
  success_consolidated 2 ∈ page (script [funds_a; funds_b]) ∧
  1 ≤ 2 ≤ length [funds_a; funds_b].
Proof.
  assert (success_consolidated 2 ∈ page (script [funds_a; funds_b])) as Hin
    by (apply (bool_decide_unpack _); vm_compute; exact I).
  split; [exact Hin|].
  exact (success_reports_at_least_one_file [funds_a; funds_b] 2 Hin).
Defined.
